(** * python-editor: [editor.py] in Rocq

    A shallow embedding of [editor.py] (version 1.0.5): the editor
    resolver [get_editor], the argument policy [get_editor_args], the
    terminal device name [get_tty_filename] and the orchestrator [edit],
    followed by the properties of the specification that concern them.

    What [editor.py] gets from the operating system and from Python's
    standard library is kept explicit.  The process environment, the
    executable locator, symlink resolution, the [os.path] of the
    platform, the terminal status of the standard streams, the
    temporary-name generator and the behaviour of the spawned editor are
    fields of an [Env] record, and every theorem quantifies over them.
    The store of files and the table of open file objects form the
    mutable [State] that [edit] threads through. *)

From Stdlib Require Import Strings.Byte Strings.Ascii Strings.String NArith.
From stdpp Require Import gmap strings list fin_maps.

Open Scope string_scope.
Open Scope list_scope.

(** ** Python values *)

(** [bytes] objects. *)
Abbreviation bytes := (list byte).

(** A [str] that is encoded is kept as its sequence of code points; the
    command names, paths and environment values, which the code only
    compares, splits and concatenates, are kept as [string]. *)
Abbreviation text := (list N).

(** The value passed as [contents]: a [str] or a [bytes]. *)
Inductive py_contents :=
| PyStr (s : text)
| PyBytes (b : bytes).

(** The exceptions that can leave the functions of the module. *)
Inductive exn :=
| EditorError (msg : string)
| ValueError (msg : string)
| IndexError (msg : string)
| UnicodeEncodeError
| OSError (msg : string).

(** A call either raises or returns. *)
Abbreviation result A := (exn + A)%type.
Abbreviation Raise e := (inl e) (only parsing).
Abbreviation Return v := (inr v) (only parsing).

(** ** The pure part of the module *)

Definition get_default_editors : list string :=
  [ "editor"; "vim"; "emacs"; "nano" ].

(** [x in l] for a [str] and a list of [str]. *)
Definition py_in (x : string) (l : list string) : bool :=
  existsb (String.eqb x) l.

Definition get_editor_args (editor : string) : list string :=
  if py_in editor ["vim"; "gvim"; "vim.basic"; "vim.tiny"] then ["-f"; "-o"]
  else if py_in editor ["emacs"; "emacsclient"] then ["-nw"]
  else if String.eqb editor "gedit" then ["-w"; "--new-window"]
  else if String.eqb editor "nano" then ["-R"]
  else if String.eqb editor "code" then ["-w"; "-n"]
  else [].

Definition get_tty_filename (platform : string) : string :=
  if String.eqb platform "win32" then "CON:" else "/dev/tty".

(** ** Standard-library functions used by the module *)

(** [posixpath.basename]: what follows the last slash.  It is the
    [os.path.basename] of the POSIX worlds; the one of a world in general
    is a field of [Env]. *)
Fixpoint basename_from (cur p : string) : string :=
  match p with
  | EmptyString => cur
  | String c rest =>
      if Ascii.eqb c "/"%char then basename_from "" rest
      else basename_from (cur +:+ String c "") rest
  end.

Definition posix_basename (p : string) : string := basename_from "" p.

(** [str.encode()]: UTF-8, strict.  A lone surrogate cannot be encoded. *)
Definition byte_of_N (n : N) : byte :=
  match Byte.of_N n with Some b => b | None => x00 end.

Definition utf8_char (cp : N) : option bytes :=
  if (cp <? 0x80)%N then Some [byte_of_N cp]
  else if (cp <? 0x800)%N then
    Some [byte_of_N (N.lor 0xC0 (N.shiftr cp 6));
          byte_of_N (N.lor 0x80 (N.land cp 0x3F))]
  else if ((0xD800 <=? cp) && (cp <=? 0xDFFF))%N then None
  else if (cp <? 0x10000)%N then
    Some [byte_of_N (N.lor 0xE0 (N.shiftr cp 12));
          byte_of_N (N.lor 0x80 (N.land (N.shiftr cp 6) 0x3F));
          byte_of_N (N.lor 0x80 (N.land cp 0x3F))]
  else if (cp <? 0x110000)%N then
    Some [byte_of_N (N.lor 0xF0 (N.shiftr cp 18));
          byte_of_N (N.lor 0x80 (N.land (N.shiftr cp 12) 0x3F));
          byte_of_N (N.lor 0x80 (N.land (N.shiftr cp 6) 0x3F));
          byte_of_N (N.lor 0x80 (N.land cp 0x3F))]
  else None.

Fixpoint str_encode (s : text) : result bytes :=
  match s with
  | [] => Return []
  | cp :: rest =>
      match utf8_char cp, str_encode rest with
      | Some b, inr bs => Return (b ++ bs)
      | None, _ => Raise UnicodeEncodeError
      | _, inl e => Raise e
      end
  end.

(** A [str] literal made of ASCII characters, as code points. *)
Definition text_of_string (s : string) : text :=
  map Ascii.N_of_ascii (list_ascii_of_string s).

(** [shlex.split(s)]: POSIX mode, whitespace splitting, no comment
    characters.  The lexer is a state machine over the characters of
    [s]; its states are those of [shlex.read_token]. *)
Inductive lex_state :=
| LexSpace                    (* between tokens *)
| LexWord                     (* inside a token *)
| LexQuote (q : ascii)        (* inside a quoted part, opened by [q] *)
| LexEscape (in_dquote : bool) (* after a backslash *).

Definition dquote : ascii := "034"%char.
Definition squote : ascii := "039"%char.
Definition backslash : ascii := "092"%char.

Definition is_whitespace (c : ascii) : bool :=
  Ascii.eqb c " "%char || Ascii.eqb c "009"%char
  || Ascii.eqb c "013"%char || Ascii.eqb c "010"%char.

Definition is_quote (c : ascii) : bool :=
  Ascii.eqb c squote || Ascii.eqb c dquote.

Definition is_escape (c : ascii) : bool := Ascii.eqb c backslash.

Definition push (tok : string) (c : ascii) : string := tok +:+ String c "".

Fixpoint shlex_scan (st : lex_state) (tok : string) (acc : list string)
    (s : string) : result (list string) :=
  match s with
  | EmptyString =>
      match st with
      | LexSpace => Return (rev acc)
      | LexWord => Return (rev (tok :: acc))
      | LexQuote _ => Raise (ValueError "No closing quotation")
      | LexEscape _ => Raise (ValueError "No escaped character")
      end
  | String c rest =>
      match st with
      | LexSpace =>
          if is_whitespace c then shlex_scan LexSpace "" acc rest
          else if is_escape c then shlex_scan (LexEscape false) "" acc rest
          else if is_quote c then shlex_scan (LexQuote c) "" acc rest
          else shlex_scan LexWord (String c "") acc rest
      | LexQuote q =>
          if Ascii.eqb c q then shlex_scan LexWord tok acc rest
          else if is_escape c && Ascii.eqb q dquote
          then shlex_scan (LexEscape true) tok acc rest
          else shlex_scan (LexQuote q) (push tok c) acc rest
      | LexEscape in_dquote =>
          let tok :=
            if in_dquote && negb (is_escape c) && negb (Ascii.eqb c dquote)
            then push tok backslash else tok in
          shlex_scan (if in_dquote then LexQuote dquote else LexWord)
                     (push tok c) acc rest
      | LexWord =>
          if is_whitespace c then shlex_scan LexSpace "" (tok :: acc) rest
          else if is_quote c then shlex_scan (LexQuote c) tok acc rest
          else if is_escape c then shlex_scan (LexEscape false) tok acc rest
          else shlex_scan LexWord (push tok c) acc rest
      end
  end.

Definition shlex_split (s : string) : result (list string) :=
  shlex_scan LexSpace "" [] s.

(** [l[0]]. *)
Definition index0 (l : list string) : result string :=
  match l with
  | [] => Raise (IndexError "list index out of range")
  | x :: _ => Return x
  end.

(** ** The world around the module *)

(** File objects: the path they were opened on and the mode. *)
Inductive mode := RB | WB | WplusB.

Record handle := Handle { h_path : string; h_mode : mode }.

#[global] Instance mode_eq_dec : EqDecision mode.
Proof. solve_decision. Defined.

#[global] Instance handle_eq_dec : EqDecision handle.
Proof. solve_decision. Defined.

(** What creating the child process leads to: the creation fails, or the
    child runs and, when it exits, has left the files in some state and
    reports a return code. *)
Inductive spawn_result :=
| SpawnFails (e : exn)
| Exits (files_after : gmap string bytes) (returncode : Z).

(** The world.  [os_path_basename] is [os.path.basename], which is
    posixpath's or ntpath's according to the platform.  [tempdir_prefix]
    is what [os.path.join] puts in front of a relative name that it joins
    to [tempfile.gettempdir()]: the directory and, where one is needed,
    the separator of the platform.  [candidate_names] are the random
    names that [tempfile] tries, in order.  [writable] tells whether a
    path may be created or opened for writing. *)
Record Env := {
  environ : gmap string string;              (* os.environ *)
  find_executable : string -> option string; (* distutils / shutil.which *)
  realpath : string -> string;               (* os.path.realpath *)
  os_path_basename : string -> string;       (* os.path.basename *)
  sys_platform : string;                     (* sys.platform *)
  stdin_isatty : bool;                       (* sys.stdin.isatty() *)
  stdout_isatty : bool;                      (* sys.stdout.isatty() *)
  tempdir_prefix : string;
  candidate_names : list string;
  writable : string -> bool;
  popen : list string -> option handle -> gmap string bytes -> spawn_result
}.

Record State := {
  files : gmap string bytes;   (* the contents of the files, by path *)
  opened : list handle         (* the file objects that are open *)
}.

(** What a call does, in order.  [EvSpawn] is a child process that was
    created, with the files as they were at that moment; [EvSpawnFailed]
    is a call of [Popen] that raised. *)
Inductive event :=
| EvOpen (h : handle)
| EvWrite (h : handle) (data : bytes)
| EvRead (h : handle)
| EvClose (h : handle)
| EvSpawn (args : list string) (stdout : option handle)
          (seen : gmap string bytes)
| EvSpawnFailed (args : list string) (stdout : option handle) (e : exn)
| EvWait (returncode : Z).

(** ** Computations: state, trace and exceptions *)

Record outcome (A : Type) := Outcome {
  final : State;
  trace : list event;
  value : result A
}.
Arguments Outcome {A}.
Arguments final {A}.
Arguments trace {A}.
Arguments value {A}.

Definition M (A : Type) : Type := State -> outcome A.

Definition ret {A} (v : A) : M A :=
  fun st => Outcome st [] (Return v).

Definition lift {A} (r : result A) : M A :=
  fun st => Outcome st [] r.

Definition bind {A B} (m : M A) (k : A -> M B) : M B :=
  fun st =>
    match m st with
    | Outcome st1 t1 (inl e) => Outcome st1 t1 (Raise e)
    | Outcome st1 t1 (inr v) =>
        match k v st1 with
        | Outcome st2 t2 r => Outcome st2 (t1 ++ t2) r
        end
    end.

Notation "x <- m ;; k" := (bind m (fun x => k))
  (at level 62, m at next level, right associativity).

(** ** Files, temporary files and processes *)

(** Removes the first occurrence of [h]. *)
Fixpoint remove_first (h : handle) (l : list handle) : list handle :=
  match l with
  | [] => []
  | x :: rest => if decide (x = h) then rest else x :: remove_first h rest
  end.

(** [open(p, mode)].  Reading needs the file to exist; the writing modes
    create the file or truncate it.  The terminal device is a path of the
    store like the others; what the store holds for it plays no part. *)
Definition open_ (env : Env) (p : string) (m : mode) : M handle :=
  fun st =>
    let h := Handle p m in
    match m with
    | RB =>
        match files st !! p with
        | Some _ =>
            Outcome {| files := files st; opened := h :: opened st |}
                    [EvOpen h] (Return h)
        | None => Outcome st [] (Raise (OSError "No such file or directory"))
        end
    | WB | WplusB =>
        if writable env p then
          Outcome {| files := <[p := []]> (files st);
                     opened := h :: opened st |}
                  [EvOpen h] (Return h)
        else Outcome st [] (Raise (OSError "Permission denied"))
    end.

(** [f.write(data)] on a file object: the data goes after what the file
    holds. *)
Definition write (f : handle) (data : bytes) : M unit :=
  fun st =>
    Outcome {| files := <[h_path f := default [] (files st !! h_path f) ++ data]>
                          (files st);
               opened := opened st |}
            [EvWrite f data] (Return tt).

(** [f.read()]: the whole file. *)
Definition read (f : handle) : M bytes :=
  fun st =>
    match files st !! h_path f with
    | Some data => Outcome st [EvRead f] (Return data)
    | None => Outcome st [] (Raise (OSError "No such file or directory"))
    end.

(** [f.close()]. *)
Definition close (f : handle) : M unit :=
  fun st =>
    Outcome {| files := files st; opened := remove_first f (opened st) |}
            [EvClose f] (Return tt).

(** [with f: body]: the file is closed when the body is left, whether it
    returns or raises. *)
Definition with_ {A} (f : handle) (body : M A) : M A :=
  fun st =>
    match body st with
    | Outcome st1 t1 r =>
        match close f st1 with
        | Outcome st2 t2 _ => Outcome st2 (t1 ++ t2) r
        end
    end.

(** [tempfile.NamedTemporaryFile(suffix=suffix)]: the first candidate
    name that does not exist yet is created in the temporary directory,
    with the prefix "tmp", and stays open.  [dir] is the directory as
    [os.path.join] renders it in front of the name. *)
Fixpoint fresh_name (dir : string) (writable : string -> bool)
    (suffix : string) (fs : gmap string bytes) (names : list string)
    : result string :=
  match names with
  | [] => Raise (OSError "No usable temporary file name found")
  | name :: rest =>
      let file := dir +:+ "tmp" +:+ name +:+ suffix in
      match fs !! file with
      | Some _ => fresh_name dir writable suffix fs rest
      | None =>
          if writable file then Return file
          else Raise (OSError "Permission denied")
      end
  end.

Definition NamedTemporaryFile (env : Env) (suffix : string) : M handle :=
  fun st =>
    match fresh_name (tempdir_prefix env) (writable env) suffix (files st)
                     (candidate_names env) with
    | inl e => Outcome st [] (Raise e)
    | inr file =>
        let h := Handle file WplusB in
        Outcome {| files := <[file := []]> (files st);
                   opened := h :: opened st |}
                [EvOpen h] (Return h)
    end.

(** A child process that was created: the state it leaves the files in,
    and its return code. *)
Record process := Process {
  files_at_exit : gmap string bytes;
  returncode : Z
}.

(** [subprocess.Popen(args, close_fds=True, stdout=stdout)]. *)
Definition Popen (env : Env) (args : list string) (stdout : option handle)
    : M process :=
  fun st =>
    match popen env args stdout (files st) with
    | SpawnFails e => Outcome st [EvSpawnFailed args stdout e] (Raise e)
    | Exits fs rc =>
        Outcome st [EvSpawn args stdout (files st)] (Return (Process fs rc))
    end.

(** [proc.communicate()]: waits for the child. *)
Definition communicate (proc : process) : M unit :=
  fun st =>
    Outcome {| files := files_at_exit proc; opened := opened st |}
            [EvWait (returncode proc)] (Return tt).

(** ** The stateful part of the module *)

(** Truth value of what [os.environ.get] returns. *)
Definition truthy (v : option string) : bool :=
  match v with
  | Some s => negb (String.eqb s "")
  | None => false
  end.

(** [a or b]. *)
Definition py_or (a b : option string) : option string :=
  if truthy a then a else b.

(** The loop over the default editors. *)
Fixpoint first_executable (env : Env) (eds : list string) : option string :=
  match eds with
  | [] => None
  | ed :: rest =>
      match find_executable env ed with
      | Some path => Some path
      | None => first_executable env rest
      end
  end.

Definition editor_not_found : string :=
  "Unable to find a viable editor on this system." +:+
  "Please consider setting your $EDITOR variable".

Definition get_editor (env : Env) : result string :=
  let editor := py_or (environ env !! "VISUAL") (environ env !! "EDITOR") in
  (* if editor: return editor *)
  match (if truthy editor then editor else None) with
  | Some editor => Return editor
  | None =>
      match first_executable env get_default_editors with
      | Some path => Return path
      | None => Raise (EditorError editor_not_found)
      end
  end.

Definition edit (env : Env) (filename : option string)
    (contents : option py_contents) (use_tty : option bool)
    (suffix : string) : M bytes :=
  ed <- lift (get_editor env) ;;
  editor <- lift (shlex_split ed) ;;
  editor0 <- lift (index0 editor) ;;
  let additional_args :=
    get_editor_args (os_path_basename env (realpath env editor0)) in
  let args := editor ++ additional_args in
  let use_tty :=
    match use_tty with
    | None => stdin_isatty env && negb (stdout_isatty env)
    | Some b => b
    end in
  filename <- match filename with
              | None =>
                  tmp <- NamedTemporaryFile env suffix ;;
                  ret (h_path tmp)
              | Some filename => ret filename
              end ;;
  _ <- match contents with
       | Some contents =>
           contents <- match contents with
                       | PyStr s => lift (str_encode s)
                       | PyBytes b => ret b
                       end ;;
           f <- open_ env filename WB ;;
           with_ f (write f contents)
       | None => ret tt
       end ;;
  let args := args ++ [filename] in
  stdout <- (if use_tty
             then f <- open_ env (get_tty_filename (sys_platform env)) WB ;;
                  ret (Some f)
             else ret None) ;;
  proc <- Popen env args stdout ;;
  _ <- communicate proc ;;
  f <- open_ env filename RB ;;
  with_ f (read f).

(** ** The specification's words, as definitions *)

(** The mapping table of the argument policy: the base names of each row
    and the flags of the row. *)
Definition editor_args_table : list (list string * list string) :=
  [ (["vim"; "gvim"; "vim.basic"; "vim.tiny"], ["-f"; "-o"]);
    (["emacs"; "emacsclient"], ["-nw"]);
    (["gedit"], ["-w"; "--new-window"]);
    (["nano"], ["-R"]);
    (["code"], ["-w"; "-n"]) ].

(** A variable of the environment that is not set, or set to the empty
    string. *)
Definition unset_or_empty (v : option string) : Prop :=
  v = None \/ v = Some "".

(** [sub] occurs in [s]. *)
Fixpoint is_substring (sub s : string) : bool :=
  String.prefix sub s ||
  match s with
  | EmptyString => false
  | String _ rest => is_substring sub rest
  end.

(** The path that [edit] works on: the one it is given, or the name of
    the temporary file it creates. *)
Definition target_path (env : Env) (filename : option string)
    (suffix : string) (st : State) : result string :=
  match filename with
  | Some filename => Return filename
  | None =>
      fresh_name (tempdir_prefix env) (writable env) suffix (files st)
                 (candidate_names env)
  end.

(** Whether the child's standard output goes to the terminal device. *)
Definition tty_mode (env : Env) (use_tty : option bool) : bool :=
  match use_tty with
  | None => stdin_isatty env && negb (stdout_isatty env)
  | Some b => b
  end.

(** The terminal device, as the file object [edit] opens on it. *)
Definition tty_handle (env : Env) : handle :=
  Handle (get_tty_filename (sys_platform env)) WB.

(** The bytes that stand for the initial contents. *)
Definition contents_bytes (c : py_contents) : result bytes :=
  match c with
  | PyStr s => str_encode s
  | PyBytes b => Return b
  end.

(** The files opened in a trace, in order, and the children created. *)
Fixpoint opens_of (t : list event) : list handle :=
  match t with
  | [] => []
  | EvOpen h :: rest => h :: opens_of rest
  | _ :: rest => opens_of rest
  end.

Fixpoint spawns_of (t : list event) : list (list string) :=
  match t with
  | [] => []
  | EvSpawn args _ _ :: rest => args :: spawns_of rest
  | _ :: rest => spawns_of rest
  end.

(** The same world, except that every child reports return code [rc]. *)
Definition with_returncode (rc : Z) (env : Env) : Env :=
  {| environ := environ env;
     find_executable := find_executable env;
     realpath := realpath env;
     os_path_basename := os_path_basename env;
     sys_platform := sys_platform env;
     stdin_isatty := stdin_isatty env;
     stdout_isatty := stdout_isatty env;
     tempdir_prefix := tempdir_prefix env;
     candidate_names := candidate_names env;
     writable := writable env;
     popen := fun args stdout fs =>
       match popen env args stdout fs with
       | SpawnFails e => SpawnFails e
       | Exits fs' _ => Exits fs' rc
       end |}.

(** A spawner that creates a child which changes no file. *)
Definition no_mutation (env : Env) : Prop :=
  forall args stdout fs, exists rc, popen env args stdout fs = Exits fs rc.

(** *** The run of [edit], described

    What [edit] has done when it reaches [Popen], and what it does once
    the child has exited, written out as functions of the call's
    arguments.  The lemmas below show that [edit] follows this
    description. *)

(** The initial contents as bytes, when there are any. *)
Definition initial_data (contents : option py_contents)
    : result (option bytes) :=
  match contents with
  | None => Return None
  | Some c =>
      match contents_bytes c with
      | inl e => Raise e
      | inr b => Return (Some b)
      end
  end.

(** The files as the child finds them. *)
Definition prepared_files (env : Env) (filename : option string)
    (data : option bytes) (use_tty : option bool) (target : string)
    (fs : gmap string bytes) : gmap string bytes :=
  let fs1 := match filename with
             | None => <[target := []]> fs
             | Some _ => fs
             end in
  let fs2 := match data with
             | Some b => <[target := b]> fs1
             | None => fs1
             end in
  if tty_mode env use_tty
  then <[get_tty_filename (sys_platform env) := []]> fs2
  else fs2.

(** The events that come before [Popen]. *)
Definition prepare_events (env : Env) (filename : option string)
    (data : option bytes) (use_tty : option bool) (target : string)
    : list event :=
  match filename with
  | None => [EvOpen (Handle target WplusB)]
  | Some _ => []
  end ++
  match data with
  | Some b => [EvOpen (Handle target WB); EvWrite (Handle target WB) b;
               EvClose (Handle target WB)]
  | None => []
  end ++
  (if tty_mode env use_tty then [EvOpen (tty_handle env)] else []).

(** The file objects that [edit] opens and does not close. *)
Definition kept_open (env : Env) (filename : option string)
    (use_tty : option bool) (target : string) : list handle :=
  (if tty_mode env use_tty then [tty_handle env] else []) ++
  match filename with
  | None => [Handle target WplusB]
  | Some _ => []
  end.

(** Reading the target back from the files the child left. *)
Definition readback_events (target : string) (fs : gmap string bytes)
    : list event :=
  match fs !! target with
  | Some _ => [EvOpen (Handle target RB); EvRead (Handle target RB);
               EvClose (Handle target RB)]
  | None => []
  end.

Definition readback_value (target : string) (fs : gmap string bytes)
    : result bytes :=
  match fs !! target with
  | Some data => Return data
  | None => Raise (OSError "No such file or directory")
  end.

(** What [edit] has settled when it reaches [Popen]: the tokens of the
    editor command, the target path and the initial data. *)
Record plan := Plan {
  plan_editor : list string;
  plan_target : string;
  plan_data : option bytes
}.

(** The plan of a call, or the exception that stops the call before
    [Popen]. *)
Definition edit_plan (env : Env) (filename : option string)
    (contents : option py_contents) (use_tty : option bool)
    (suffix : string) (st : State) : result plan :=
  match get_editor env with
  | inl e => Raise e
  | inr ed =>
  match shlex_split ed with
  | inl e => Raise e
  | inr editor =>
  match index0 editor with
  | inl e => Raise e
  | inr _ =>
  match target_path env filename suffix st with
  | inl e => Raise e
  | inr target =>
  match initial_data contents with
  | inl e => Raise e
  | inr data =>
      if match data with
         | Some _ => negb (writable env target)
         | None => false
         end
      then Raise (OSError "Permission denied")
      else if tty_mode env use_tty
              && negb (writable env (get_tty_filename (sys_platform env)))
      then Raise (OSError "Permission denied")
      else Return (Plan editor target data)
  end end end end end.

(** The argument vector of a plan. *)
Definition plan_args (env : Env) (p : plan) : list string :=
  plan_editor p
    ++ get_editor_args
         (os_path_basename env (realpath env (hd "" (plan_editor p))))
    ++ [plan_target p].

(** The [stdout] argument of [Popen]. *)
Definition plan_stdout (env : Env) (use_tty : option bool) : option handle :=
  if tty_mode env use_tty then Some (tty_handle env) else None.

(** The events of the preparation: opening, writing and closing files. *)
Definition preparing (ev : event) : bool :=
  match ev with
  | EvOpen _ | EvWrite _ _ | EvClose _ => true
  | _ => false
  end.

(** The events of a preparation that does not get to [Popen]: the
    temporary file is opened only when no path is given, and a file is
    opened for writing, written and closed only when there are
    contents. *)
Definition early (filename : option string) (contents : option py_contents)
    (ev : event) : bool :=
  match ev with
  | EvOpen h | EvClose h =>
      match h_mode h with
      | WplusB => bool_decide (filename = None)
      | WB => bool_decide (contents <> None)
      | RB => false
      end
  | EvWrite h _ => bool_decide (contents <> None)
  | _ => false
  end.

(** [Popen] was called with [args]: a child was created, or the call
    raised. *)
Definition popen_called (args : list string) (t : list event) : Prop :=
  (exists stdout seen, In (EvSpawn args stdout seen) t)
  \/ (exists stdout e, In (EvSpawnFailed args stdout e) t).

(** The files opened on a path. *)
Definition opens_on (p : string) (t : list event) : list handle :=
  List.filter (fun h => String.eqb (h_path h) p) (opens_of t).

(** ** Example worlds *)

(** A POSIX system: the working directory is /home/user and holds no
    symbolic link, temporary files go to /tmp and every path may be
    written. *)
Definition posix_env (vars : gmap string string)
    (find : string -> option string) (tty_in tty_out : bool)
    (spawn : list string -> option handle -> gmap string bytes -> spawn_result)
    : Env :=
  {| environ := vars;
     find_executable := find;
     realpath := fun p =>
       if String.prefix "/" p then p else "/home/user/" +:+ p;
     os_path_basename := posix_basename;
     sys_platform := "linux";
     stdin_isatty := tty_in;
     stdout_isatty := tty_out;
     tempdir_prefix := "/tmp/";
     candidate_names := ["k3x9_q0a"; "w81hz2mm"];
     writable := fun _ => true;
     popen := spawn |}.

(** Only vim is installed. *)
Definition only_vim (name : string) : option string :=
  if String.eqb name "vim" then Some "/usr/bin/vim" else None.

(** No editor is installed. *)
Definition no_editor (name : string) : option string := None.

(** An editor that exits at once, with return code [rc], and changes no
    file. *)
Definition noop_editor (rc : Z) (args : list string) (stdout : option handle)
    (fs : gmap string bytes) : spawn_result :=
  Exits fs rc.

(** The child process cannot be created. *)
Definition failing_spawn (args : list string) (stdout : option handle)
    (fs : gmap string bytes) : spawn_result :=
  SpawnFails (OSError "No such file or directory").

(** EDITOR is set to the empty string, VISUAL is not set. *)
Definition env_empty_EDITOR : Env :=
  posix_env {[ "EDITOR" := "" ]} only_vim true true (noop_editor 0).

(** VISUAL and EDITOR are both set. *)
Definition env_both : Env :=
  posix_env {[ "VISUAL" := "test-visual"; "EDITOR" := "test-editor" ]}
            no_editor true true (noop_editor 0).

(** EDITOR holds a command with a flag. *)
Definition env_emacsclient : Env :=
  posix_env {[ "EDITOR" := "emacsclient -c" ]} no_editor true true
            (noop_editor 0).

(** EDITOR is vim; standard input is a terminal, standard output is
    not. *)
Definition env_piped : Env :=
  posix_env {[ "EDITOR" := "vim" ]} only_vim true false (noop_editor 0).

(** EDITOR is vim; the editor exits with return code 1. *)
Definition env_exit_1 : Env :=
  posix_env {[ "EDITOR" := "vim" ]} only_vim true true (noop_editor 1).

(** EDITOR is vim, and the child process cannot be created. *)
Definition env_no_spawn : Env :=
  posix_env {[ "EDITOR" := "vim" ]} only_vim true true failing_spawn.

(** One file exists, no file object is open. *)
Definition st_test : State :=
  {| files := {[ "/tmp/test.txt" := list_byte_of_string "test content" ]};
     opened := [] |}.

(** EDITOR is vim; both standard streams are terminals. *)
Definition env_vim : Env :=
  posix_env {[ "EDITOR" := "vim" ]} only_vim true true (noop_editor 0).

(** Nothing is set and nothing is installed. *)
Definition env_bare : Env :=
  posix_env ∅ no_editor true true (noop_editor 0).

(** ** The command-line front end *)

(** The arguments of the [edit] subcommand, as [argparse] leaves them. *)
Record namespace := Namespace {
  ns_path : option string;
  ns_contents : option text
}.

(** What is handed to [print]. *)
Inductive printed :=
| PrintStr (s : string)
| PrintBytes (b : bytes).

(** A run of a subcommand: the run of the library call underneath, and
    what was printed. *)
Record cli_outcome := CliOutcome {
  cli_final : State;
  cli_trace : list event;
  cli_printed : list printed;
  cli_value : result unit
}.

Definition _get_editor (env : Env) (st : State) : cli_outcome :=
  match get_editor env with
  | inl e => CliOutcome st [] [] (Raise e)
  | inr ed => CliOutcome st [] [PrintStr ed] (Return tt)
  end.

(** [preferred] stands for [str.encode(locale.getpreferredencoding())]. *)
Definition _edit (env : Env) (preferred : text -> result bytes)
    (ns : namespace) (st : State) : cli_outcome :=
  match
    match ns_contents ns with
    | Some contents =>
        match preferred contents with
        | inl e => Raise e
        | inr b => Return (Some (PyBytes b))
        end
    | None => Return None
    end
  with
  | inl e => CliOutcome st [] [] (Raise e)
  | inr contents =>
      match edit env (ns_path ns) contents None "" st with
      | Outcome st1 t1 (inl e) => CliOutcome st1 t1 [] (Raise e)
      | Outcome st1 t1 (inr b) =>
          CliOutcome st1 t1 [PrintBytes b] (Return tt)
      end
  end.

(** ** More words for the properties *)

(** The string has a slash in it. *)
Fixpoint has_slash (s : string) : bool :=
  match s with
  | EmptyString => false
  | String c rest => Ascii.eqb c "/"%char || has_slash rest
  end.

(** The string is made of whitespace only. *)
Fixpoint blank (s : string) : bool :=
  match s with
  | EmptyString => true
  | String c rest => is_whitespace c && blank rest
  end.

(** Text that UTF-8 can encode: no surrogate, nothing past U+10FFFF. *)
Definition encodable (s : text) : bool :=
  forallb (fun cp => match utf8_char cp with Some _ => true | None => false end)
          s.

(** ** More example worlds *)

(** VISUAL is set to two spaces. *)
Definition env_blank_VISUAL : Env :=
  posix_env {[ "VISUAL" := "  " ]} only_vim true true (noop_editor 0).

(** An editor that removes every file and exits. *)
Definition removing_editor (args : list string) (stdout : option handle)
    (fs : gmap string bytes) : spawn_result :=
  Exits ∅ 0.

Definition env_removing : Env :=
  posix_env {[ "EDITOR" := "vim" ]} only_vim true true removing_editor.

(** EDITOR is the name editor, which the working directory links to
    /usr/bin/vim.tiny. *)
Definition env_linked : Env :=
  {| environ := {[ "EDITOR" := "editor" ]};
     find_executable := no_editor;
     realpath := fun p =>
       if String.eqb p "editor" then "/usr/bin/vim.tiny" else p;
     os_path_basename := posix_basename;
     sys_platform := "linux";
     stdin_isatty := true;
     stdout_isatty := true;
     tempdir_prefix := "/tmp/";
     candidate_names := ["k3x9_q0a"; "w81hz2mm"];
     writable := fun _ => true;
     popen := noop_editor 0 |}.

(** A Windows system: EDITOR is code, which is a file of the working
    directory C:\Users\me; [os.path.basename] is ntpath's, given here on
    the path that occurs. *)
Definition env_windows : Env :=
  {| environ := {[ "EDITOR" := "code" ]};
     find_executable := no_editor;
     realpath := fun p =>
       if String.eqb p "code" then "C:\Users\me\code" else p;
     os_path_basename := fun p =>
       if String.eqb p "C:\Users\me\code" then "code" else p;
     sys_platform := "win32";
     stdin_isatty := true;
     stdout_isatty := true;
     tempdir_prefix := "C:\Temp" +:+ String backslash "";
     candidate_names := ["k3x9_q0a"; "w81hz2mm"];
     writable := fun _ => true;
     popen := noop_editor 0 |}.

Definition st_windows : State :=
  {| files := {[ "C:\Users\me\notes.txt" := list_byte_of_string "notes" ]};
     opened := [] |}.

(** A locale whose encoding is Latin-1. *)
Fixpoint latin1 (s : text) : result bytes :=
  match s with
  | [] => Return []
  | cp :: rest =>
      if (cp <? 256)%N then
        match latin1 rest with
        | inl e => Raise e
        | inr bs => Return (byte_of_N cp :: bs)
        end
      else Raise UnicodeEncodeError
  end.

(** ** The argument policy *)

Lemma py_in_false x l : (forall y, In y l -> x <> y) -> py_in x l = false.
Proof.
  unfold py_in. induction l as [|y l IH]; intros H; simpl; [reflexivity|].
  rewrite IH by (intros z Hz; apply H; right; exact Hz).
  destruct (String.eqb_spec x y) as [->|]; [|reflexivity].
  exfalso. apply (H y); [left|]; reflexivity.
Qed.

(** C2.  [get_editor_args] is a total function that returns, for every
    base name of a row of the mapping table, the flags of that row, in
    order, and the empty list for every string that is in no row. *)
Theorem get_editor_args_table :
  (forall names flags editor,
      In (names, flags) editor_args_table -> In editor names ->
      get_editor_args editor = flags) /\
  (forall editor,
      (forall names flags,
          In (names, flags) editor_args_table -> ~ In editor names) ->
      get_editor_args editor = []).
Proof.
  split.
  - intros names flags editor Hrow Hname.
    unfold editor_args_table in Hrow. simpl in Hrow.
    repeat (destruct Hrow as [Hrow|Hrow];
            [injection Hrow as <- <-; simpl in Hname;
             repeat (destruct Hname as [<-|Hname]; [reflexivity|]);
             destruct Hname|]).
    destruct Hrow.
  - intros editor Hnone.
    assert (Hne : forall names flags y,
               In (names, flags) editor_args_table -> In y names ->
               editor <> y).
    { intros names flags y Hrow Hy ->. exact (Hnone _ _ Hrow Hy). }
    unfold get_editor_args.
    rewrite !py_in_false.
    + assert (H1 : String.eqb editor "gedit" = false).
      { apply String.eqb_neq.
        apply (Hne ["gedit"] ["-w"; "--new-window"]); simpl; tauto. }
      assert (H2 : String.eqb editor "nano" = false).
      { apply String.eqb_neq. apply (Hne ["nano"] ["-R"]); simpl; tauto. }
      assert (H3 : String.eqb editor "code" = false).
      { apply String.eqb_neq.
        apply (Hne ["code"] ["-w"; "-n"]); simpl; tauto. }
      rewrite H1, H2, H3. reflexivity.
    + intros y Hy. apply (Hne ["emacs"; "emacsclient"] ["-nw"]); simpl; tauto.
    + intros y Hy.
      apply (Hne ["vim"; "gvim"; "vim.basic"; "vim.tiny"] ["-f"; "-o"]);
        simpl; tauto.
Qed.

Lemma get_editor_args_table_witness :
  get_editor_args "emacsclient" = ["-nw"] /\
  get_editor_args "unknown-editor" = [].
Proof.
  split.
  - apply (proj1 get_editor_args_table ["emacs"; "emacsclient"] ["-nw"]);
      simpl; tauto.
  - apply (proj2 get_editor_args_table).
    intros names flags Hrow Hin. simpl in Hrow.
    repeat (destruct Hrow as [Hrow|Hrow];
            [injection Hrow as <- <-; simpl in Hin;
             repeat (destruct Hin as [Hin|Hin]; [discriminate Hin|]);
             exact Hin|]).
    exact Hrow.
Defined.

(** ** The editor resolver *)

Lemma truthy_Some x : x <> "" -> truthy (Some x) = true.
Proof.
  intros Hx. simpl. destruct (String.eqb_spec x ""); [contradiction|reflexivity].
Qed.

Lemma truthy_unset_or_empty v : unset_or_empty v -> truthy v = false.
Proof. intros [->| ->]; reflexivity. Qed.

Lemma first_executable_app env pre ed post path :
  (forall e, In e pre -> find_executable env e = None) ->
  find_executable env ed = Some path ->
  first_executable env (pre ++ ed :: post) = Some path.
Proof.
  intros Hpre Hed. induction pre as [|e pre IH]; simpl.
  - rewrite Hed. reflexivity.
  - rewrite (Hpre e) by (left; reflexivity).
    apply IH. intros e' He'. apply Hpre. right. exact He'.
Qed.

Lemma first_executable_none env eds :
  (forall e, In e eds -> find_executable env e = None) ->
  first_executable env eds = None.
Proof.
  intros H. induction eds as [|e eds IH]; simpl; [reflexivity|].
  rewrite (H e) by (left; reflexivity).
  apply IH. intros e' He'. apply H. right. exact He'.
Qed.

(** C1, as amended.  [get_editor] returns the value of VISUAL verbatim
    when it is set and not empty; otherwise the value of EDITOR when it
    is set and not empty; otherwise (each variable being unset or empty)
    the path that the executable locator gives for the first name of
    ['editor'; 'vim'; 'emacs'; 'nano'], in this order, that it resolves.
    In particular the value of a non-empty VISUAL is returned whatever
    EDITOR holds. *)
Theorem get_editor_priority (env : Env) :
  (forall x,
      environ env !! "VISUAL" = Some x -> x <> "" ->
      get_editor env = Return x) /\
  (forall y,
      unset_or_empty (environ env !! "VISUAL") ->
      environ env !! "EDITOR" = Some y -> y <> "" ->
      get_editor env = Return y) /\
  (forall pre ed post path,
      unset_or_empty (environ env !! "VISUAL") ->
      unset_or_empty (environ env !! "EDITOR") ->
      pre ++ ed :: post = ["editor"; "vim"; "emacs"; "nano"] ->
      (forall e, In e pre -> find_executable env e = None) ->
      find_executable env ed = Some path ->
      get_editor env = Return path).
Proof.
  unfold get_editor, py_or. repeat split.
  - intros x Hv Hx. rewrite Hv, (truthy_Some x Hx), (truthy_Some x Hx).
    reflexivity.
  - intros y Hv He Hy. rewrite (truthy_unset_or_empty _ Hv), He.
    rewrite (truthy_Some y Hy). reflexivity.
  - intros pre ed post path Hv He Hlist Hpre Hed.
    rewrite (truthy_unset_or_empty _ Hv), (truthy_unset_or_empty _ He).
    unfold get_default_editors. rewrite <- Hlist.
    rewrite (first_executable_app env pre ed post path Hpre Hed).
    reflexivity.
Qed.

Lemma get_editor_priority_witness :
  get_editor env_both = Return "test-visual" /\
  get_editor env_empty_EDITOR = Return "/usr/bin/vim".
Proof.
  split.
  - apply (proj1 (get_editor_priority env_both)).
    + reflexivity.
    + discriminate.
  - apply (proj2 (proj2 (get_editor_priority env_empty_EDITOR))
             ["editor"] "vim" ["emacs"; "nano"]).
    + left. reflexivity.
    + right. reflexivity.
    + reflexivity.
    + intros e [<-|[]]. reflexivity.
    + reflexivity.
Defined.

(** C1, as stated, fails: with VISUAL not set and EDITOR set to the empty
    string, the value of EDITOR is not returned; the resolver goes on to
    the default editors. *)
Lemma get_editor_empty_EDITOR :
  environ env_empty_EDITOR !! "VISUAL" = None /\
  environ env_empty_EDITOR !! "EDITOR" = Some "" /\
  get_editor env_empty_EDITOR = Return "/usr/bin/vim" /\
  get_editor env_empty_EDITOR <> Return "".
Proof. repeat split. discriminate. Qed.

(** C7, as amended.  When neither VISUAL nor EDITOR is set and the
    executable locator resolves none of the default editors,
    [get_editor] raises [EditorError], and the message tells the user to
    set the EDITOR variable, the second one that the resolver looks at;
    it does not name VISUAL. *)
Theorem get_editor_not_found (env : Env) :
  environ env !! "VISUAL" = None ->
  environ env !! "EDITOR" = None ->
  (forall ed, In ed get_default_editors -> find_executable env ed = None) ->
  exists msg,
    get_editor env = Raise (EditorError msg) /\
    is_substring "Unable to find a viable editor" msg = true /\
    is_substring "Please consider setting your $EDITOR variable" msg = true
    /\ is_substring "VISUAL" msg = false.
Proof.
  intros Hv He Hnone. exists editor_not_found.
  unfold get_editor, py_or. rewrite Hv, He. cbn [truthy].
  rewrite (first_executable_none env _ Hnone).
  repeat split.
Qed.

Lemma get_editor_not_found_witness :
  exists msg,
    get_editor env_bare = Raise (EditorError msg) /\
    is_substring "Unable to find a viable editor" msg = true /\
    is_substring "Please consider setting your $EDITOR variable" msg = true
    /\ is_substring "VISUAL" msg = false.
Proof.
  apply (get_editor_not_found env_bare).
  - reflexivity.
  - reflexivity.
  - intros ed _. reflexivity.
Defined.

(** C7, as stated, fails: with nothing set and nothing installed, the
    message of the error does not mention VISUAL, the variable that the
    resolver looks at first; the variable it tells the user to set is
    EDITOR. *)
Lemma editor_not_found_names_EDITOR :
  environ env_bare !! "VISUAL" = None /\
  environ env_bare !! "EDITOR" = None /\
  get_editor env_bare = Raise (EditorError editor_not_found) /\
  is_substring "VISUAL" editor_not_found = false /\
  is_substring "$EDITOR" editor_not_found = true.
Proof. repeat split. Qed.

(** ** The run of [edit] *)

(** [edit] follows the description of its run: it stops with the
    exception of the plan, having only opened, written and closed files,
    or it reaches [Popen] with the arguments, the standard output and the
    files of the plan and, according to what [Popen] does, raises the
    spawn error or waits for the child and reads the target back. *)
Lemma edit_run env filename contents use_tty suffix st :
  let o := edit env filename contents use_tty suffix st in
  match edit_plan env filename contents use_tty suffix st with
  | inl e =>
      value o = Raise e /\
      forallb (early filename contents) (trace o) = true
  | inr p =>
      let args := plan_args env p in
      let stdout := plan_stdout env use_tty in
      let seen :=
        prepared_files env filename (plan_data p) use_tty (plan_target p)
                       (files st) in
      let kept :=
        kept_open env filename use_tty (plan_target p) ++ opened st in
      let before :=
        prepare_events env filename (plan_data p) use_tty (plan_target p) in
      match popen env args stdout seen with
      | SpawnFails e =>
          o = Outcome {| files := seen; opened := kept |}
                      (before ++ [EvSpawnFailed args stdout e])
                      (Raise e)
      | Exits fs' rc =>
          o = Outcome {| files := fs'; opened := kept |}
                      (before ++ EvSpawn args stdout seen :: EvWait rc
                         :: readback_events (plan_target p) fs')
                      (readback_value (plan_target p) fs')
      end
  end.
Proof.
  cbv zeta. destruct st as [fs0 op0].
  unfold edit_plan, edit, target_path, initial_data, contents_bytes.
  unfold bind, lift, ret, NamedTemporaryFile, open_, with_, write, read,
    close, Popen, communicate.
  fold (tty_mode env use_tty).
  destruct (get_editor env) as [e|ed]; [split; reflexivity|].
  destruct (shlex_split ed) as [e|editor]; [split; reflexivity|].
  destruct editor as [|editor0 editor]; [split; reflexivity|].
  cbn [index0].
  destruct filename as [target|];
    [|cbn [files];
      destruct (fresh_name (tempdir_prefix env) (writable env) suffix fs0
                           (candidate_names env))
        as [e|target]; [split; reflexivity|]].
  all: cbn [h_path files opened final trace value app].
  all: destruct contents as [[s|b]|];
    [destruct (str_encode s) as [e|b]; [split; reflexivity|]| |].
  all: cbn [h_path files opened final trace value app].
  all: try (destruct (writable env target); [|split; reflexivity]).
  all: cbn [negb h_path files opened final trace value app remove_first].
  all: rewrite ?decide_True by reflexivity.
  all: destruct (tty_mode env use_tty) eqn:Htty;
    [destruct (writable env (get_tty_filename (sys_platform env)));
     [|split; reflexivity]|].
  all: cbn [negb andb h_path files opened final trace value app].
  all: unfold plan_args, plan_stdout, prepared_files, prepare_events,
         kept_open, readback_events, readback_value, tty_handle.
  all: rewrite Htty.
  all: cbn [plan_editor plan_target plan_data hd app].
  all: rewrite ?lookup_insert_eq; cbn [default from_option id app];
       rewrite ?insert_insert_eq, <- ?app_assoc.
  all: destruct (popen env _ _ _) as [e|fs' rc]; [reflexivity|].
  all: cbn [files_at_exit returncode h_path files opened final trace value
              app].
  all: destruct (fs' !! target) as [data|] eqn:Hback;
       cbn [h_path files opened final trace value app remove_first];
       rewrite ?Hback;
       cbn [h_path files opened final trace value app remove_first];
       rewrite ?decide_True by reflexivity; reflexivity.
Qed.

(** What a plan records. *)
Lemma edit_plan_inv env filename contents use_tty suffix st p :
  edit_plan env filename contents use_tty suffix st = Return p ->
  exists ed,
    get_editor env = Return ed /\
    shlex_split ed = Return (plan_editor p) /\
    plan_editor p <> [] /\
    target_path env filename suffix st = Return (plan_target p) /\
    initial_data contents = Return (plan_data p) /\
    (plan_data p <> None -> writable env (plan_target p) = true) /\
    (tty_mode env use_tty = true ->
     writable env (get_tty_filename (sys_platform env)) = true).
Proof.
  unfold edit_plan. intros H.
  destruct (get_editor env) as [|ed]; [discriminate|].
  destruct (shlex_split ed) as [|editor] eqn:Hsplit; [discriminate|].
  destruct editor as [|editor0 editor]; [discriminate|]. cbn [index0] in H.
  destruct (target_path env filename suffix st) as [|target]; [discriminate|].
  destruct (initial_data contents) as [|data]; [discriminate|].
  assert (Hw : data <> None -> writable env target = true).
  { destruct data; [|done].
    destruct (writable env target); [done|discriminate]. }
  destruct (match data with Some _ => negb (writable env target)
                       | None => false end); [discriminate|].
  assert (Ht : tty_mode env use_tty = true ->
               writable env (get_tty_filename (sys_platform env)) = true).
  { intros Htty. rewrite Htty in H.
    destruct (writable env _); [done|discriminate]. }
  destruct (tty_mode env use_tty && negb (writable env _)); [discriminate|].
  injection H as <-. exists ed. cbn. split_and!; done.
Qed.

(** When nothing stops the preparation, there is a plan. *)
Lemma edit_plan_intro env filename contents use_tty suffix st
    ed editor target data :
  get_editor env = Return ed ->
  shlex_split ed = Return editor ->
  editor <> [] ->
  target_path env filename suffix st = Return target ->
  initial_data contents = Return data ->
  (data <> None -> writable env target = true) ->
  (tty_mode env use_tty = true ->
   writable env (get_tty_filename (sys_platform env)) = true) ->
  edit_plan env filename contents use_tty suffix st
  = Return (Plan editor target data).
Proof.
  intros Hed Hsplit Hne Htarget Hdata Hw Htty. unfold edit_plan.
  rewrite Hed, Hsplit, Htarget, Hdata.
  destruct editor as [|editor0 editor]; [done|]. cbn [index0].
  destruct data as [b|].
  - rewrite Hw by done. cbn [negb].
    destruct (tty_mode env use_tty); [rewrite Htty by done|]; reflexivity.
  - destruct (tty_mode env use_tty); [rewrite Htty by done|]; reflexivity.
Qed.

Lemma forallb_In (f : event -> bool) t ev :
  forallb f t = true -> In ev t -> f ev = true.
Proof. intros H Hin. exact (proj1 (forallb_forall f t) H ev Hin). Qed.

Lemma prepare_events_preparing env filename data use_tty target :
  forallb preparing (prepare_events env filename data use_tty target) = true.
Proof.
  unfold prepare_events.
  destruct filename, data, (tty_mode env use_tty); reflexivity.
Qed.

Lemma readback_events_In target fs ev :
  In ev (readback_events target fs) ->
  ev = EvOpen (Handle target RB) \/ ev = EvRead (Handle target RB)
  \/ ev = EvClose (Handle target RB).
Proof.
  unfold readback_events. destruct (fs !! target); simpl; [|tauto].
  intuition auto.
Qed.

(** A child that was created: the call had a plan, [Popen] was called as
    the plan says, and the run of [edit] is known in full. *)
Lemma edit_spawned env filename contents use_tty suffix st args stdout seen :
  In (EvSpawn args stdout seen)
     (trace (edit env filename contents use_tty suffix st)) ->
  exists p fs' rc,
    edit_plan env filename contents use_tty suffix st = Return p /\
    args = plan_args env p /\
    stdout = plan_stdout env use_tty /\
    seen = prepared_files env filename (plan_data p) use_tty (plan_target p)
                          (files st) /\
    popen env args stdout seen = Exits fs' rc /\
    edit env filename contents use_tty suffix st =
      Outcome {| files := fs';
                 opened := kept_open env filename use_tty (plan_target p)
                             ++ opened st |}
              (prepare_events env filename (plan_data p) use_tty
                              (plan_target p)
                 ++ EvSpawn args stdout seen :: EvWait rc
                 :: readback_events (plan_target p) fs')
              (readback_value (plan_target p) fs').
Proof.
  intros Hin.
  pose proof (edit_run env filename contents use_tty suffix st) as Hrun.
  cbv zeta in Hrun.
  destruct (edit_plan env filename contents use_tty suffix st) as [e|p].
  - destruct Hrun as [_ Hprep].
    pose proof (forallb_In _ _ _ Hprep Hin). discriminate.
  - destruct (popen env _ _ _) as [e|fs' rc] eqn:Hpopen.
    + rewrite Hrun in Hin. cbn [trace] in Hin.
      apply in_app_or in Hin as [Hin|[Hin|[]]]; [|discriminate].
      pose proof (forallb_In _ _ _ (prepare_events_preparing _ _ _ _ _) Hin).
      discriminate.
    + rewrite Hrun in Hin. cbn [trace] in Hin.
      apply in_app_or in Hin as [Hin|[Hin|[Hin|Hin]]].
      * pose proof (forallb_In _ _ _ (prepare_events_preparing _ _ _ _ _)
                      Hin).
        discriminate.
      * injection Hin as <- <- <-. exists p, fs', rc. split_and!; done.
      * discriminate.
      * apply readback_events_In in Hin as [|[|]]; discriminate.
Qed.

(** A call of [Popen] that raised. *)
Lemma edit_spawn_failed env filename contents use_tty suffix st args stdout e :
  In (EvSpawnFailed args stdout e)
     (trace (edit env filename contents use_tty suffix st)) ->
  exists p,
    edit_plan env filename contents use_tty suffix st = Return p /\
    args = plan_args env p /\
    stdout = plan_stdout env use_tty /\
    edit env filename contents use_tty suffix st =
      Outcome {| files := prepared_files env filename (plan_data p) use_tty
                                         (plan_target p) (files st);
                 opened := kept_open env filename use_tty (plan_target p)
                             ++ opened st |}
              (prepare_events env filename (plan_data p) use_tty
                              (plan_target p)
                 ++ [EvSpawnFailed args stdout e])
              (Raise e).
Proof.
  intros Hin.
  pose proof (edit_run env filename contents use_tty suffix st) as Hrun.
  cbv zeta in Hrun.
  destruct (edit_plan env filename contents use_tty suffix st) as [e'|p].
  - destruct Hrun as [_ Hprep].
    pose proof (forallb_In _ _ _ Hprep Hin). discriminate.
  - destruct (popen env _ _ _) as [e'|fs' rc] eqn:Hpopen.
    + rewrite Hrun in Hin. cbn [trace] in Hin.
      apply in_app_or in Hin as [Hin|[Hin|[]]].
      * pose proof (forallb_In _ _ _ (prepare_events_preparing _ _ _ _ _)
                      Hin).
        discriminate.
      * injection Hin as <- <- <-. exists p. split_and!; done.
    + rewrite Hrun in Hin. cbn [trace] in Hin.
      apply in_app_or in Hin as [Hin|[Hin|[Hin|Hin]]]; try discriminate.
      * pose proof (forallb_In _ _ _ (prepare_events_preparing _ _ _ _ _)
                      Hin).
        discriminate.
      * apply readback_events_In in Hin as [|[|]]; discriminate.
Qed.

(** A call that returns has created a child. *)
Lemma edit_returned env filename contents use_tty suffix st data :
  value (edit env filename contents use_tty suffix st) = Return data ->
  exists args stdout seen,
    In (EvSpawn args stdout seen)
       (trace (edit env filename contents use_tty suffix st)).
Proof.
  intros Hval.
  pose proof (edit_run env filename contents use_tty suffix st) as Hrun.
  cbv zeta in Hrun.
  destruct (edit_plan env filename contents use_tty suffix st) as [e|p].
  - destruct Hrun as [Hrun _]. congruence.
  - destruct (popen env _ _ _) as [e|fs' rc] eqn:Hpopen.
    + rewrite Hrun in Hval. discriminate.
    + eexists _, _, _. rewrite Hrun. cbn [trace].
      apply in_or_app. right. left. reflexivity.
Qed.

(** A call with a plan reaches [Popen]. *)
Lemma edit_reaches_popen env filename contents use_tty suffix st p :
  edit_plan env filename contents use_tty suffix st = Return p ->
  let args := plan_args env p in
  let stdout := plan_stdout env use_tty in
  let seen := prepared_files env filename (plan_data p) use_tty
                             (plan_target p) (files st) in
  match popen env args stdout seen with
  | SpawnFails e =>
      In (EvSpawnFailed args stdout e)
         (trace (edit env filename contents use_tty suffix st))
  | Exits fs' rc =>
      In (EvSpawn args stdout seen)
         (trace (edit env filename contents use_tty suffix st))
  end.
Proof.
  intros Hplan.
  pose proof (edit_run env filename contents use_tty suffix st) as Hrun.
  cbv zeta in *. rewrite Hplan in Hrun.
  destruct (popen env _ _ _) as [e|fs' rc]; rewrite Hrun; cbn [trace];
    apply in_or_app; right; left; reflexivity.
Qed.

(** ** The argument vector *)

Lemma edit_spawn_args env filename contents use_tty suffix st args stdout seen :
  In (EvSpawn args stdout seen)
     (trace (edit env filename contents use_tty suffix st)) ->
  exists ed editor target,
    get_editor env = Return ed /\
    shlex_split ed = Return editor /\
    editor <> [] /\
    target_path env filename suffix st = Return target /\
    args = editor
             ++ get_editor_args
                  (os_path_basename env (realpath env (hd "" editor)))
             ++ [target].
Proof.
  intros Hin.
  destruct (edit_spawned _ _ _ _ _ _ _ _ _ Hin)
    as (p & fs' & rc & Hplan & -> & _).
  destruct (edit_plan_inv _ _ _ _ _ _ _ Hplan)
    as (ed & Hed & Hsplit & Hne & Htarget & _).
  exists ed, (plan_editor p), (plan_target p). split_and!; done.
Qed.

(** C3.  Whenever [edit] creates the editor process, the argument vector
    is the shell-style tokenization of the resolved editor string,
    followed by the flags that [get_editor_args] gives for the base name
    of the real path of the first token, followed by the target path;
    the base name is the one that [os.path.basename] gives on the
    platform of the call.  In particular, when the resolved editor string
    is "emacsclient -c", emacsclient is not a link to another name and
    the target is /tmp/test.txt, the vector is exactly emacsclient, -c,
    -nw, /tmp/test.txt.  And [edit] does call [Popen] with this vector as
    soon as the editor resolves to a string with at least one token and
    the files it prepares can be opened. *)
Theorem edit_argument_vector :
  (forall env filename contents use_tty suffix st args stdout seen,
      In (EvSpawn args stdout seen)
         (trace (edit env filename contents use_tty suffix st)) ->
      exists ed editor target,
        get_editor env = Return ed /\
        shlex_split ed = Return editor /\
        target_path env filename suffix st = Return target /\
        args = editor
                 ++ get_editor_args
                      (os_path_basename env (realpath env (hd "" editor)))
                 ++ [target]) /\
  (forall env contents use_tty suffix st args stdout seen,
      get_editor env = Return "emacsclient -c" ->
      os_path_basename env (realpath env "emacsclient") = "emacsclient" ->
      In (EvSpawn args stdout seen)
         (trace (edit env (Some "/tmp/test.txt") contents use_tty suffix
                      st)) ->
      args = ["emacsclient"; "-c"; "-nw"; "/tmp/test.txt"]) /\
  (forall env filename contents use_tty suffix st ed editor target data,
      get_editor env = Return ed ->
      shlex_split ed = Return editor ->
      editor <> [] ->
      target_path env filename suffix st = Return target ->
      initial_data contents = Return data ->
      (data <> None -> writable env target = true) ->
      (tty_mode env use_tty = true ->
       writable env (get_tty_filename (sys_platform env)) = true) ->
      popen_called
        (editor
           ++ get_editor_args
                (os_path_basename env (realpath env (hd "" editor)))
           ++ [target])
        (trace (edit env filename contents use_tty suffix st))).
Proof.
  split_and!.
  - intros env filename contents use_tty suffix st args stdout seen Hin.
    destruct (edit_spawn_args _ _ _ _ _ _ _ _ _ Hin)
      as (ed & editor & target & Hed & Hsplit & _ & Htarget & Hargs).
    exists ed, editor, target. split_and!; done.
  - intros env contents use_tty suffix st args stdout seen Hed Hreal Hin.
    destruct (edit_spawn_args _ _ _ _ _ _ _ _ _ Hin)
      as (ed & editor & target & Hed' & Hsplit & _ & Htarget & ->).
    rewrite Hed in Hed'. injection Hed' as <-.
    change (shlex_split "emacsclient -c")
      with (@inr exn _ ["emacsclient"; "-c"]) in Hsplit.
    injection Hsplit as <-. injection Htarget as <-.
    cbn [hd]. rewrite Hreal. reflexivity.
  - intros env filename contents use_tty suffix st ed editor target data
      Hed Hsplit Hne Htarget Hdata Hw Htty.
    pose proof (edit_reaches_popen _ _ _ _ _ _ _
                  (edit_plan_intro _ _ _ _ _ _ _ _ _ _
                     Hed Hsplit Hne Htarget Hdata Hw Htty)) as Hreach.
    cbv zeta in Hreach. unfold plan_args in Hreach.
    cbn [plan_editor plan_target plan_data] in Hreach.
    unfold popen_called.
    destruct (popen env _ _ _) as [e|fs' rc]; [right|left]; eauto.
Qed.

Lemma edit_argument_vector_witness :
  In (EvSpawn ["emacsclient"; "-c"; "-nw"; "/tmp/test.txt"] None
              (files st_test))
     (trace (edit env_emacsclient (Some "/tmp/test.txt") None None ""
                  st_test)) /\
  ["emacsclient"; "-c"; "-nw"; "/tmp/test.txt"]
  = ["emacsclient"; "-c"; "-nw"; "/tmp/test.txt"] /\
  In (EvSpawn ["code"; "-w"; "-n"; "C:\Users\me\notes.txt"] None
              (files st_windows))
     (trace (edit env_windows (Some "C:\Users\me\notes.txt") None None ""
                  st_windows)) /\
  exists ed editor target,
    get_editor env_windows = Return ed /\
    shlex_split ed = Return editor /\
    target_path env_windows (Some "C:\Users\me\notes.txt") "" st_windows
    = Return target /\
    ["code"; "-w"; "-n"; "C:\Users\me\notes.txt"]
    = editor
        ++ get_editor_args
             (os_path_basename env_windows
                (realpath env_windows (hd "" editor)))
        ++ [target].
Proof.
  assert (Hin : In (EvSpawn ["emacsclient"; "-c"; "-nw"; "/tmp/test.txt"]
                            None (files st_test))
                   (trace (edit env_emacsclient (Some "/tmp/test.txt") None
                                None "" st_test))).
  { vm_compute. left. reflexivity. }
  assert (Hwin : In (EvSpawn ["code"; "-w"; "-n"; "C:\Users\me\notes.txt"]
                             None (files st_windows))
                    (trace (edit env_windows
                                 (Some "C:\Users\me\notes.txt") None None
                                 "" st_windows))).
  { vm_compute. left. reflexivity. }
  split_and!; [exact Hin| |exact Hwin|].
  - apply (proj1 (proj2 edit_argument_vector) env_emacsclient None None ""
                 st_test _ None (files st_test)).
    + reflexivity.
    + reflexivity.
    + exact Hin.
  - exact (proj1 edit_argument_vector env_windows _ _ _ _ _ _ _ _ Hwin).
Defined.

(** ** The terminal *)

(** C5.  When [use_tty] is not given, the standard output of the editor
    process is the terminal device (/dev/tty, or CON: where the platform
    is win32), opened for writing, if and only if standard input is a
    terminal and standard output is not; in every other case the process
    inherits the standard output. *)
Theorem edit_tty_default env filename contents suffix st args stdout seen :
  In (EvSpawn args stdout seen)
     (trace (edit env filename contents None suffix st)) ->
  (stdin_isatty env = true /\ stdout_isatty env = false ->
   stdout = Some (Handle (if String.eqb (sys_platform env) "win32"
                          then "CON:" else "/dev/tty") WB) /\
   In (EvOpen (Handle (get_tty_filename (sys_platform env)) WB))
      (trace (edit env filename contents None suffix st))) /\
  (~ (stdin_isatty env = true /\ stdout_isatty env = false) ->
   stdout = None).
Proof.
  intros Hin.
  destruct (edit_spawned _ _ _ _ _ _ _ _ _ Hin)
    as (p & fs' & rc & _ & _ & -> & _ & _ & Hrun).
  unfold plan_stdout, tty_mode, tty_handle. split.
  - intros [Hin_tty Hout_tty]. rewrite Hin_tty, Hout_tty. cbn [andb negb].
    split; [reflexivity|].
    rewrite Hrun. cbn [trace]. apply in_or_app. left.
    unfold prepare_events, tty_mode, tty_handle.
    rewrite Hin_tty, Hout_tty. cbn [andb negb].
    apply in_or_app. right. apply in_or_app. right. left. reflexivity.
  - intros Hnot.
    destruct (stdin_isatty env), (stdout_isatty env); try reflexivity.
    exfalso. apply Hnot. split; reflexivity.
Qed.

Lemma edit_tty_default_witness :
  In (EvSpawn ["vim"; "-f"; "-o"; "/tmp/test.txt"]
              (Some (Handle "/dev/tty" WB))
              (<["/dev/tty" := []]> (files st_test)))
     (trace (edit env_piped (Some "/tmp/test.txt") None None "" st_test)) /\
  In (EvOpen (Handle "/dev/tty" WB))
     (trace (edit env_piped (Some "/tmp/test.txt") None None "" st_test)).
Proof.
  assert (Hin : In (EvSpawn ["vim"; "-f"; "-o"; "/tmp/test.txt"]
                            (Some (Handle "/dev/tty" WB))
                            (<["/dev/tty" := []]> (files st_test)))
                   (trace (edit env_piped (Some "/tmp/test.txt") None None ""
                                st_test))).
  { vm_compute. right. left. reflexivity. }
  split; [exact Hin|].
  apply (proj1 (edit_tty_default env_piped _ _ _ _ _ _ _ Hin)).
  split; reflexivity.
Defined.

(** ** The return code of the editor *)

(** C6.  The return code of the editor process plays no part in the
    result: in a world that differs only by the return codes of the
    children, [edit] returns the same bytes or raises the same exception;
    and whatever the return code, once the child has exited [edit] opens
    the target again and returns all the bytes that the child has left
    in it. *)
Theorem edit_ignores_returncode env filename contents use_tty suffix st :
  (forall rc,
      value (edit (with_returncode rc env) filename contents use_tty suffix
                  st)
      = value (edit env filename contents use_tty suffix st)) /\
  (forall args stdout seen fs' rc,
      In (EvSpawn args stdout seen)
         (trace (edit env filename contents use_tty suffix st)) ->
      popen env args stdout seen = Exits fs' rc ->
      exists target,
        target_path env filename suffix st = Return target /\
        files (final (edit env filename contents use_tty suffix st)) = fs' /\
        forall data,
          fs' !! target = Some data ->
          value (edit env filename contents use_tty suffix st) = Return data
          /\ In (EvOpen (Handle target RB))
                (trace (edit env filename contents use_tty suffix st))).
Proof.
  split.
  - intros rc.
    pose proof (edit_run (with_returncode rc env) filename contents use_tty
                         suffix st) as Hrc.
    pose proof (edit_run env filename contents use_tty suffix st) as Hrun.
    cbv zeta in Hrc, Hrun.
    change (edit_plan (with_returncode rc env) filename contents use_tty
                      suffix st)
      with (edit_plan env filename contents use_tty suffix st) in Hrc.
    destruct (edit_plan env filename contents use_tty suffix st) as [e|p].
    + destruct Hrc as [-> _], Hrun as [-> _]. reflexivity.
    + change (popen (with_returncode rc env)
                    (plan_args (with_returncode rc env) p)
                    (plan_stdout (with_returncode rc env) use_tty)
                    (prepared_files (with_returncode rc env) filename
                       (plan_data p) use_tty (plan_target p) (files st)))
        with (match popen env (plan_args env p) (plan_stdout env use_tty)
                      (prepared_files env filename (plan_data p) use_tty
                         (plan_target p) (files st))
              with
              | SpawnFails e => SpawnFails e
              | Exits fs' _ => Exits fs' rc
              end) in Hrc.
      destruct (popen env _ _ _) as [e|fs' rc0];
        rewrite Hrc, Hrun; reflexivity.
  - intros args stdout seen fs' rc Hin Hpopen.
    destruct (edit_spawned _ _ _ _ _ _ _ _ _ Hin)
      as (p & fs'' & rc' & Hplan & _ & _ & _ & Hpopen' & Hrun).
    rewrite Hpopen in Hpopen'. injection Hpopen' as <- <-.
    destruct (edit_plan_inv _ _ _ _ _ _ _ Hplan)
      as (ed & _ & _ & _ & Htarget & _).
    exists (plan_target p). rewrite Hrun. cbn [final files value trace].
    split_and!; [done..|].
    intros data Hdata. unfold readback_value, readback_events.
    rewrite Hdata. split; [reflexivity|].
    apply in_or_app. right. right. right. left. reflexivity.
Qed.

Lemma edit_ignores_returncode_witness :
  value (edit env_exit_1 (Some "/tmp/test.txt") None None "" st_test)
  = Return (list_byte_of_string "test content") /\
  In (EvOpen (Handle "/tmp/test.txt" RB))
     (trace (edit env_exit_1 (Some "/tmp/test.txt") None None "" st_test)).
Proof.
  assert (Hin : In (EvSpawn ["vim"; "-f"; "-o"; "/tmp/test.txt"] None
                            (files st_test))
                   (trace (edit env_exit_1 (Some "/tmp/test.txt") None None
                                "" st_test))).
  { vm_compute. left. reflexivity. }
  destruct (proj2 (edit_ignores_returncode env_exit_1 (Some "/tmp/test.txt")
                     None None "" st_test)
                  _ _ _ (files st_test) 1%Z Hin eq_refl)
    as (target & Htarget & _ & Hback).
  injection Htarget as <-.
  apply Hback. reflexivity.
Defined.

(** ** Initial contents *)

Lemma prefix_app sub s : String.prefix sub (sub +:+ s) = true.
Proof.
  induction sub as [|c sub IH]; simpl.
  - destruct s; reflexivity.
  - destruct (Ascii.ascii_dec c c); [exact IH|contradiction].
Qed.

Lemma is_substring_here sub s : is_substring sub (sub +:+ s) = true.
Proof.
  assert (Hstep : forall x, String.prefix sub x = true ->
                            is_substring sub x = true).
  { intros x Hx. destruct x; cbn [is_substring]; rewrite Hx; reflexivity. }
  apply Hstep, prefix_app.
Qed.

Lemma is_substring_app_l sub a s :
  is_substring sub s = true -> is_substring sub (a +:+ s) = true.
Proof.
  intros H. induction a as [|c a IH]; simpl; [exact H|].
  rewrite IH. apply orb_true_r.
Qed.

(** The name of a temporary file is new, may be written and has "tmp" in
    it. *)
Lemma fresh_name_inv dir ok suffix fs names file :
  fresh_name dir ok suffix fs names = Return file ->
  fs !! file = None /\ ok file = true /\ is_substring "tmp" file = true.
Proof.
  induction names as [|name names IH]; simpl; [discriminate|].
  destruct (fs !! (dir +:+ _)) eqn:Hfree; [exact IH|].
  destruct (ok (dir +:+ _)) eqn:Hok; [|discriminate].
  intros [= <-]. split_and!; [done..|].
  apply is_substring_app_l, is_substring_here.
Qed.

(** It is therefore not the terminal device. *)
Lemma fresh_name_not_tty dir ok suffix fs names file platform :
  fresh_name dir ok suffix fs names = Return file ->
  file <> get_tty_filename platform.
Proof.
  intros Hfresh ->. apply fresh_name_inv in Hfresh as (_ & _ & Htmp).
  unfold get_tty_filename in Htmp.
  destruct (String.eqb platform "win32"); discriminate.
Qed.

(** What the child finds in the target when there are initial
    contents. *)
Lemma prepared_files_target env filename data use_tty target fs :
  (tty_mode env use_tty = true ->
   target <> get_tty_filename (sys_platform env)) ->
  prepared_files env filename (Some data) use_tty target fs !! target
  = Some data.
Proof.
  intros Hne. unfold prepared_files.
  destruct (tty_mode env use_tty).
  - rewrite lookup_insert_ne by (apply not_eq_sym, Hne; reflexivity).
    apply lookup_insert_eq.
  - apply lookup_insert_eq.
Qed.

Lemma edit_contents_at_spawn env contents use_tty suffix st args stdout seen :
  In (EvSpawn args stdout seen)
     (trace (edit env None (Some contents) use_tty suffix st)) ->
  exists target data before after,
    target_path env None suffix st = Return target /\
    contents_bytes contents = Return data /\
    trace (edit env None (Some contents) use_tty suffix st)
    = before ++ EvSpawn args stdout seen :: after /\
    In (EvWrite (Handle target WB) data) before /\
    seen !! target = Some data /\
    (no_mutation env ->
     value (edit env None (Some contents) use_tty suffix st) = Return data).
Proof.
  intros Hin.
  destruct (edit_spawned _ _ _ _ _ _ _ _ _ Hin)
    as (p & fs' & rc & Hplan & Hargs & Hstdout & Hseen & Hpopen & Hrun).
  destruct (edit_plan_inv _ _ _ _ _ _ _ Hplan)
    as (ed & _ & _ & _ & Htarget & Hdata & _).
  unfold initial_data in Hdata.
  destruct (contents_bytes contents) as [|data] eqn:Hbytes; [discriminate|].
  injection Hdata as Hdata.
  assert (Hfound : seen !! plan_target p = Some data).
  { rewrite Hseen, <- Hdata. apply prepared_files_target.
    intros _. exact (fresh_name_not_tty _ _ _ _ _ _ _ Htarget). }
  exists (plan_target p), data,
    (prepare_events env None (plan_data p) use_tty (plan_target p)),
    (EvWait rc :: readback_events (plan_target p) fs').
  split_and!; try done.
  - rewrite Hrun. reflexivity.
  - rewrite <- Hdata. unfold prepare_events. simpl. tauto.
  - intros Hnoop. destruct (Hnoop args stdout seen) as [rc' Hsame].
    rewrite Hsame in Hpopen. injection Hpopen as <- <-.
    rewrite Hrun. cbn [value]. unfold readback_value. rewrite Hfound.
    reflexivity.
Qed.

(** With contents and no path, a call that gets as far as the temporary
    file and whose text encodes does write and does call [Popen]: the
    target is opened for writing, the bytes are written and the file is
    closed, and then [Popen] is called on files in which the target holds
    exactly these bytes. *)
Lemma edit_writes_then_spawns env contents use_tty suffix st
    ed editor target data :
  get_editor env = Return ed ->
  shlex_split ed = Return editor ->
  editor <> [] ->
  target_path env None suffix st = Return target ->
  contents_bytes contents = Return data ->
  (tty_mode env use_tty = true ->
   writable env (get_tty_filename (sys_platform env)) = true) ->
  exists args stdout seen before,
    In (EvOpen (Handle target WB)) before /\
    In (EvWrite (Handle target WB) data) before /\
    In (EvClose (Handle target WB)) before /\
    seen !! target = Some data /\
    match popen env args stdout seen with
    | Exits fs' rc =>
        exists after,
          trace (edit env None (Some contents) use_tty suffix st)
          = before ++ EvSpawn args stdout seen :: after
    | SpawnFails e =>
        trace (edit env None (Some contents) use_tty suffix st)
        = before ++ [EvSpawnFailed args stdout e]
    end.
Proof.
  intros Hed Hsplit Hne Htarget Hbytes Htty.
  assert (Hplan :
            edit_plan env None (Some contents) use_tty suffix st
            = Return (Plan editor target (Some data))).
  { apply (edit_plan_intro _ _ _ _ _ _ ed); try done.
    - unfold initial_data. rewrite Hbytes. reflexivity.
    - intros _. exact (proj1 (proj2 (fresh_name_inv _ _ _ _ _ _ Htarget))). }
  pose proof (edit_run env None (Some contents) use_tty suffix st) as Hrun.
  cbv zeta in Hrun. rewrite Hplan in Hrun.
  cbn [plan_data plan_target] in Hrun.
  exists (plan_args env (Plan editor target (Some data))),
    (plan_stdout env use_tty),
    (prepared_files env None (Some data) use_tty target (files st)),
    (prepare_events env None (Some data) use_tty target).
  split_and!.
  - unfold prepare_events. simpl. tauto.
  - unfold prepare_events. simpl. tauto.
  - unfold prepare_events. simpl. tauto.
  - apply prepared_files_target.
    intros _. exact (fresh_name_not_tty _ _ _ _ _ _ _ Htarget).
  - destruct (popen env _ _ _) as [e|fs' rc]; rewrite Hrun; cbn [trace];
      [reflexivity|eexists; reflexivity].
Qed.

(** C4.  In a call with contents and no path, whenever the editor process
    is created the contents, as bytes (a [str] encoded in UTF-8, [bytes]
    as they are), have been written to the target before, and they are
    all that the target holds at that moment.  The call does write them
    and does call [Popen] afterwards, on files in which the target holds
    exactly these bytes, as soon as the editor resolves to a string with
    a token, the temporary file can be created, the text encodes and the
    terminal device can be opened if needed.  With a spawner that changes
    no file, [edit] then returns these bytes; for the contents "hello"
    the bytes of "hello" are written, the editor process is created on
    them and they are returned. *)
Theorem edit_round_trip :
  (forall env contents use_tty suffix st args stdout seen,
      In (EvSpawn args stdout seen)
         (trace (edit env None (Some contents) use_tty suffix st)) ->
      exists target data before after,
        target_path env None suffix st = Return target /\
        contents_bytes contents = Return data /\
        trace (edit env None (Some contents) use_tty suffix st)
        = before ++ EvSpawn args stdout seen :: after /\
        In (EvWrite (Handle target WB) data) before /\
        seen !! target = Some data /\
        (no_mutation env ->
         value (edit env None (Some contents) use_tty suffix st)
         = Return data)) /\
  (forall env contents use_tty suffix st ed editor target data,
      get_editor env = Return ed ->
      shlex_split ed = Return editor ->
      editor <> [] ->
      target_path env None suffix st = Return target ->
      contents_bytes contents = Return data ->
      (tty_mode env use_tty = true ->
       writable env (get_tty_filename (sys_platform env)) = true) ->
      exists args stdout seen before,
        In (EvOpen (Handle target WB)) before /\
        In (EvWrite (Handle target WB) data) before /\
        In (EvClose (Handle target WB)) before /\
        seen !! target = Some data /\
        match popen env args stdout seen with
        | Exits fs' rc =>
            exists after,
              trace (edit env None (Some contents) use_tty suffix st)
              = before ++ EvSpawn args stdout seen :: after
        | SpawnFails e =>
            trace (edit env None (Some contents) use_tty suffix st)
            = before ++ [EvSpawnFailed args stdout e]
        end) /\
  (forall env use_tty suffix st ed editor target,
      no_mutation env ->
      get_editor env = Return ed ->
      shlex_split ed = Return editor ->
      editor <> [] ->
      target_path env None suffix st = Return target ->
      (tty_mode env use_tty = true ->
       writable env (get_tty_filename (sys_platform env)) = true) ->
      value (edit env None (Some (PyStr (text_of_string "hello"))) use_tty
                  suffix st)
      = Return (list_byte_of_string "hello") /\
      exists args stdout seen before after,
        trace (edit env None (Some (PyStr (text_of_string "hello"))) use_tty
                    suffix st)
        = before ++ EvSpawn args stdout seen :: after /\
        In (EvWrite (Handle target WB) (list_byte_of_string "hello")) before
        /\ seen !! target = Some (list_byte_of_string "hello")).
Proof.
  split_and!; [exact edit_contents_at_spawn|exact edit_writes_then_spawns|].
  intros env use_tty suffix st ed editor target Hnoop Hed Hsplit Hne Htarget
    Htty.
  destruct (edit_writes_then_spawns env (PyStr (text_of_string "hello"))
              use_tty suffix st ed editor target
              (list_byte_of_string "hello") Hed Hsplit Hne Htarget eq_refl
              Htty)
    as (args & stdout & seen & before & _ & Hwrite & _ & Hseen & Hpopen).
  destruct (Hnoop args stdout seen) as [rc Hexits].
  rewrite Hexits in Hpopen. destruct Hpopen as [after Htrace].
  assert (Hin : In (EvSpawn args stdout seen)
                   (trace (edit env None
                                (Some (PyStr (text_of_string "hello")))
                                use_tty suffix st))).
  { rewrite Htrace. apply in_or_app. right. left. reflexivity. }
  split.
  - destruct (edit_contents_at_spawn _ _ _ _ _ _ _ _ Hin)
      as (target' & data & before' & after' & _ & Hbytes & _ & _ & _
          & Hvalue).
    rewrite (Hvalue Hnoop). rewrite <- Hbytes. reflexivity.
  - exists args, stdout, seen, before, after. split_and!; done.
Qed.

Lemma edit_round_trip_witness :
  value (edit env_piped None (Some (PyStr (text_of_string "hello"))) None
              ".md" st_test)
  = Return (list_byte_of_string "hello") /\
  exists args stdout seen before after,
    trace (edit env_piped None (Some (PyStr (text_of_string "hello"))) None
                ".md" st_test)
    = before ++ EvSpawn args stdout seen :: after /\
    In (EvWrite (Handle "/tmp/tmpk3x9_q0a.md" WB)
                (list_byte_of_string "hello")) before /\
    seen !! "/tmp/tmpk3x9_q0a.md" = Some (list_byte_of_string "hello").
Proof.
  apply (proj2 (proj2 edit_round_trip) env_piped None ".md" st_test
               "vim" ["vim"] "/tmp/tmpk3x9_q0a.md").
  - intros args stdout fs. exists 0%Z. reflexivity.
  - reflexivity.
  - reflexivity.
  - discriminate.
  - vm_compute. reflexivity.
  - reflexivity.
Defined.

(** ** Files opened and children created *)

Lemma opens_of_app t1 t2 : opens_of (t1 ++ t2) = opens_of t1 ++ opens_of t2.
Proof.
  induction t1 as [|ev t1 IH]; [reflexivity|].
  destruct ev; simpl; rewrite IH; reflexivity.
Qed.

Lemma spawns_of_app t1 t2 :
  spawns_of (t1 ++ t2) = spawns_of t1 ++ spawns_of t2.
Proof.
  induction t1 as [|ev t1 IH]; [reflexivity|].
  destruct ev; simpl; rewrite IH; reflexivity.
Qed.

Lemma spawns_of_early filename contents t :
  forallb (early filename contents) t = true -> spawns_of t = [].
Proof.
  induction t as [|ev t IH]; [reflexivity|]. simpl.
  intros [Hev Ht]%andb_true_iff.
  destruct ev; try discriminate; exact (IH Ht).
Qed.

Lemma spawns_of_prepare env filename data use_tty target :
  spawns_of (prepare_events env filename data use_tty target) = [].
Proof.
  unfold prepare_events.
  destruct filename, data, (tty_mode env use_tty); reflexivity.
Qed.

Lemma spawns_of_readback target fs :
  spawns_of (readback_events target fs) = [].
Proof. unfold readback_events. destruct (fs !! target); reflexivity. Qed.

(** The initial data of a plan are there exactly when there are
    contents. *)
Lemma initial_data_Some contents data :
  initial_data contents = Return data ->
  match contents with
  | Some c => exists b, contents_bytes c = Return b /\ data = Some b
  | None => data = None
  end.
Proof.
  unfold initial_data. destruct contents as [c|].
  - destruct (contents_bytes c) as [|b]; [discriminate|].
    intros [= <-]. exists b. split; reflexivity.
  - intros [= <-]. reflexivity.
Qed.

(** C8, as amended.  A call of [edit] creates at most one child process.
    A call that returns has created exactly one and has opened, in this
    order: the temporary file when no path is given, the target for
    writing when contents are given, the terminal device when the
    standard output of the child is redirected to it, and the target for
    the final read; it has opened nothing else. *)
Theorem edit_opens_and_spawns env filename contents use_tty suffix st :
  length (spawns_of (trace (edit env filename contents use_tty suffix st)))
  <= 1 /\
  forall data,
    value (edit env filename contents use_tty suffix st) = Return data ->
    exists target,
      target_path env filename suffix st = Return target /\
      length (spawns_of (trace (edit env filename contents use_tty suffix
                                     st)))
      = 1 /\
      opens_of (trace (edit env filename contents use_tty suffix st))
      = match filename with
        | None => [Handle target WplusB]
        | Some _ => []
        end
        ++ match contents with
           | Some _ => [Handle target WB]
           | None => []
           end
        ++ (if tty_mode env use_tty then [tty_handle env] else [])
        ++ [Handle target RB].
Proof.
  split.
  { pose proof (edit_run env filename contents use_tty suffix st) as Hrun.
    cbv zeta in Hrun.
    destruct (edit_plan env filename contents use_tty suffix st) as [e|p].
    - destruct Hrun as [_ Hearly].
      rewrite (spawns_of_early _ _ _ Hearly). simpl. lia.
    - destruct (popen env _ _ _) as [e|fs' rc]; rewrite Hrun; cbn [trace];
        rewrite spawns_of_app, spawns_of_prepare; simpl;
        [lia|rewrite spawns_of_readback; simpl; lia]. }
  intros data Hval.
  destruct (edit_returned _ _ _ _ _ _ _ Hval) as (args & stdout & seen & Hin).
  destruct (edit_spawned _ _ _ _ _ _ _ _ _ Hin)
    as (p & fs' & rc & Hplan & _ & _ & _ & _ & Hrun).
  destruct (edit_plan_inv _ _ _ _ _ _ _ Hplan)
    as (ed & _ & _ & _ & Htarget & Hdata & _).
  apply initial_data_Some in Hdata.
  exists (plan_target p). split; [exact Htarget|].
  rewrite Hrun in Hval |- *. cbn [value trace] in Hval |- *.
  unfold readback_value in Hval. unfold readback_events.
  destruct (fs' !! plan_target p) as [back|]; [|discriminate].
  rewrite spawns_of_app, opens_of_app. unfold prepare_events. split.
  - destruct filename, (plan_data p), (tty_mode env use_tty); reflexivity.
  - destruct contents as [c|].
    + destruct Hdata as (b & _ & ->).
      destruct filename, (tty_mode env use_tty); reflexivity.
    + rewrite Hdata.
      destruct filename, (tty_mode env use_tty); reflexivity.
Qed.

Lemma edit_opens_and_spawns_witness :
  length (spawns_of (trace (edit env_piped None
                                 (Some (PyBytes (list_byte_of_string "x")))
                                 None "" st_test)))
  = 1 /\
  opens_of (trace (edit env_piped None
                        (Some (PyBytes (list_byte_of_string "x"))) None ""
                        st_test))
  = [Handle "/tmp/tmpk3x9_q0a" WplusB; Handle "/tmp/tmpk3x9_q0a" WB;
     Handle "/dev/tty" WB; Handle "/tmp/tmpk3x9_q0a" RB].
Proof.
  destruct (proj2 (edit_opens_and_spawns env_piped None
                     (Some (PyBytes (list_byte_of_string "x"))) None ""
                     st_test)
                  (list_byte_of_string "x"))
    as (target & Htarget & Hspawns & Hopens).
  - vm_compute. reflexivity.
  - vm_compute in Htarget. injection Htarget as <-.
    split; [exact Hspawns|exact Hopens].
Defined.

(** C8, as stated, fails: a call with a path, with contents and with the
    standard output of the child sent to the terminal returns after three
    file opens, and a call with a path and no contents returns after
    one. *)
Lemma edit_opens_not_two :
  opens_of (trace (edit env_vim (Some "/tmp/test.txt")
                        (Some (PyBytes (list_byte_of_string "x")))
                        (Some true) "" st_test))
  = [Handle "/tmp/test.txt" WB; Handle "/dev/tty" WB;
     Handle "/tmp/test.txt" RB] /\
  value (edit env_vim (Some "/tmp/test.txt")
              (Some (PyBytes (list_byte_of_string "x"))) (Some true) ""
              st_test)
  = Return (list_byte_of_string "x") /\
  opens_of (trace (edit env_vim (Some "/tmp/test.txt") None None ""
                        st_test))
  = [Handle "/tmp/test.txt" RB] /\
  value (edit env_vim (Some "/tmp/test.txt") None None "" st_test)
  = Return (list_byte_of_string "test content") /\
  length (opens_of (trace (edit env_vim (Some "/tmp/test.txt")
                                (Some (PyBytes (list_byte_of_string "x")))
                                (Some true) "" st_test))) <> 2.
Proof. vm_compute. repeat split. discriminate. Qed.

(** ** Failure to create the child *)

Lemma prepare_events_In env filename data use_tty target ev :
  In ev (prepare_events env filename data use_tty target) ->
  (exists h, ev = EvOpen h /\ h_mode h <> RB)
  \/ (exists h b, ev = EvWrite h b) \/ (exists h, ev = EvClose h).
Proof.
  unfold prepare_events, tty_handle. intros Hin.
  apply in_app_or in Hin as [Hin|Hin];
    [|apply in_app_or in Hin as [Hin|Hin]].
  - destruct filename; simpl in Hin; [tauto|].
    destruct Hin as [<-|[]]. left. eexists. split; [reflexivity|discriminate].
  - destruct data; simpl in Hin; [|tauto].
    destruct Hin as [<-|[<-|[<-|[]]]]; [left|right; left|right; right];
      eauto.
  - destruct (tty_mode env use_tty); simpl in Hin; [|tauto].
    destruct Hin as [<-|[]]. left. eexists. split; [reflexivity|discriminate].
Qed.

(** C9, as amended.  When creating the child process fails, [edit] raises
    the spawn error at once: the failed call of [Popen] is the last thing
    it does, it has not waited for a child, and it has neither opened the
    target for reading nor read it.  The file object used to write the
    initial contents is closed by then: no file object opened by the call
    is still open, other than the one on the temporary file (when no path
    is given) and the one on the terminal device (when the standard
    output of the child is redirected to it). *)
Theorem edit_spawn_failure env filename contents use_tty suffix st
    args stdout e :
  In (EvSpawnFailed args stdout e)
     (trace (edit env filename contents use_tty suffix st)) ->
  value (edit env filename contents use_tty suffix st) = Raise e /\
  (exists before,
      trace (edit env filename contents use_tty suffix st)
      = before ++ [EvSpawnFailed args stdout e]) /\
  (forall rc,
      ~ In (EvWait rc) (trace (edit env filename contents use_tty suffix st)))
  /\
  (forall h,
      ~ In (EvRead h) (trace (edit env filename contents use_tty suffix st)))
  /\
  (forall h,
      In (EvOpen h) (trace (edit env filename contents use_tty suffix st)) ->
      h_mode h <> RB) /\
  (exists leaked,
      opened (final (edit env filename contents use_tty suffix st))
      = leaked ++ opened st /\
      (forall h,
          In h leaked ->
          (h = tty_handle env /\ tty_mode env use_tty = true)
          \/ (h_mode h = WplusB /\ filename = None)) /\
      (filename <> None -> tty_mode env use_tty = false -> leaked = [])).
Proof.
  intros Hin.
  destruct (edit_spawn_failed _ _ _ _ _ _ _ _ _ Hin)
    as (p & Hplan & _ & _ & Hrun).
  rewrite Hrun. cbn [value trace final opened].
  assert (Hbefore : forall ev,
             In ev (prepare_events env filename (plan_data p) use_tty
                                   (plan_target p)
                      ++ [EvSpawnFailed args stdout e]) ->
             (exists h, ev = EvOpen h /\ h_mode h <> RB)
             \/ (exists h b, ev = EvWrite h b) \/ (exists h, ev = EvClose h)
             \/ ev = EvSpawnFailed args stdout e).
  { intros ev Hev. apply in_app_or in Hev as [Hev|[<-|[]]]; [|tauto].
    apply prepare_events_In in Hev. tauto. }
  split_and!.
  - reflexivity.
  - eexists. reflexivity.
  - intros rc Hw.
    destruct (Hbefore _ Hw) as [(h & ? & _)|[(h & b & ?)|[(h & ?)|?]]];
      discriminate.
  - intros h Hr.
    destruct (Hbefore _ Hr) as [(h' & ? & _)|[(h' & b & ?)|[(h' & ?)|?]]];
      discriminate.
  - intros h Ho.
    destruct (Hbefore _ Ho) as [(h' & Heq & Hm)|[(h' & b & ?)|[(h' & ?)|?]]];
      try discriminate.
    injection Heq as <-. exact Hm.
  - exists (kept_open env filename use_tty (plan_target p)).
    unfold kept_open. split_and!.
    + reflexivity.
    + intros h Hh. apply in_app_or in Hh as [Hh|Hh].
      * destruct (tty_mode env use_tty); [|destruct Hh].
        destruct Hh as [<-|[]]. left. split; reflexivity.
      * destruct filename; [destruct Hh|].
        destruct Hh as [<-|[]]. right. split; reflexivity.
    + intros Hname ->. destruct filename; [reflexivity|contradiction].
Qed.

Lemma edit_spawn_failure_witness :
  value (edit env_no_spawn (Some "/tmp/test.txt")
              (Some (PyBytes (list_byte_of_string "x"))) None "" st_test)
  = Raise (OSError "No such file or directory") /\
  opened (final (edit env_no_spawn (Some "/tmp/test.txt")
                      (Some (PyBytes (list_byte_of_string "x"))) None ""
                      st_test))
  = [].
Proof.
  assert (Hin : In (EvSpawnFailed ["vim"; "-f"; "-o"; "/tmp/test.txt"] None
                                  (OSError "No such file or directory"))
                   (trace (edit env_no_spawn (Some "/tmp/test.txt")
                                (Some (PyBytes (list_byte_of_string "x")))
                                None "" st_test))).
  { vm_compute. tauto. }
  destruct (edit_spawn_failure _ _ _ _ _ _ _ _ _ Hin)
    as (Hval & _ & _ & _ & _ & leaked & Hopened & _ & Hnone).
  split; [exact Hval|].
  rewrite Hopened, Hnone; [reflexivity|discriminate|reflexivity].
Defined.

(** C9, as stated, fails: when the standard output of the child is sent
    to the terminal and the child cannot be created, the file object
    opened on the terminal device is still open when [edit] raises. *)
Lemma tty_left_open_on_spawn_failure :
  opened st_test = [] /\
  value (edit env_no_spawn (Some "/tmp/test.txt") None (Some true) ""
              st_test)
  = Raise (OSError "No such file or directory") /\
  opened (final (edit env_no_spawn (Some "/tmp/test.txt") None (Some true)
                      "" st_test))
  = [Handle "/dev/tty" WB].
Proof. vm_compute. repeat split. Qed.

(** ** Editing a file in place *)

(** Without contents, the target that the child finds is the target as it
    was. *)
Lemma prepared_files_untouched env filename use_tty fs :
  (tty_mode env use_tty = true ->
   filename <> get_tty_filename (sys_platform env)) ->
  prepared_files env (Some filename) None use_tty filename fs !! filename
  = fs !! filename.
Proof.
  intros Hne. unfold prepared_files. destruct (tty_mode env use_tty).
  - apply lookup_insert_ne, not_eq_sym, Hne. reflexivity.
  - reflexivity.
Qed.

Lemma early_nothing filename t :
  forallb (early (Some filename) None) t = true -> t = [].
Proof.
  destruct t as [|ev t]; [reflexivity|]. simpl.
  destruct ev as [[? []]| | |[? []]| | |]; discriminate.
Qed.

Lemma opens_on_tty env filename use_tty :
  (tty_mode env use_tty = true ->
   filename <> get_tty_filename (sys_platform env)) ->
  opens_on filename
    (prepare_events env (Some filename) None use_tty filename) = [].
Proof.
  intros Hne. unfold opens_on, prepare_events, tty_handle.
  destruct (tty_mode env use_tty); [|reflexivity]. simpl.
  destruct (String.eqb_spec (get_tty_filename (sys_platform env)) filename)
    as [Heq|_]; [|reflexivity].
  exfalso. apply Hne; [reflexivity|]. symmetry. exact Heq.
Qed.

Lemma opens_on_app p t1 t2 :
  opens_on p (t1 ++ t2) = opens_on p t1 ++ opens_on p t2.
Proof.
  unfold opens_on. rewrite opens_of_app. apply List.filter_app.
Qed.

(** C10, as amended.  In a call with a path and no contents, the path
    not being the terminal device that the call opens, [edit] writes to
    no file and opens the target at most once, for the final read; the
    child finds the target as it was before the call.  With a spawner that changes
    no file, a call that returns has opened the target exactly once and
    returns the bytes that the target held before the call, which it
    still holds; and the call does return them when the editor resolves,
    the terminal device can be opened if needed and the target exists. *)
Theorem edit_existing_file env filename use_tty suffix st :
  (tty_mode env use_tty = true ->
   filename <> get_tty_filename (sys_platform env)) ->
  let o := edit env (Some filename) None use_tty suffix st in
  (forall h data, ~ In (EvWrite h data) (trace o)) /\
  (opens_on filename (trace o) = []
   \/ opens_on filename (trace o) = [Handle filename RB]) /\
  (forall args stdout seen,
      In (EvSpawn args stdout seen) (trace o) ->
      seen !! filename = files st !! filename) /\
  (no_mutation env ->
   forall data,
     value o = Return data ->
     files st !! filename = Some data /\
     files (final o) !! filename = Some data /\
     opens_on filename (trace o) = [Handle filename RB]) /\
  (no_mutation env ->
   forall ed editor data,
     get_editor env = Return ed ->
     shlex_split ed = Return editor ->
     editor <> [] ->
     (tty_mode env use_tty = true ->
      writable env (get_tty_filename (sys_platform env)) = true) ->
     files st !! filename = Some data ->
     value o = Return data).
Proof.
  intros Hne o.
  pose proof (edit_run env (Some filename) None use_tty suffix st) as Hrun.
  cbv zeta in Hrun. fold o in Hrun.
  destruct (edit_plan env (Some filename) None use_tty suffix st)
    as [e|p] eqn:Hplan.
  - destruct Hrun as [Hval Hearly]. apply early_nothing in Hearly.
    rewrite Hearly. split_and!.
    + intros h data [].
    + left. reflexivity.
    + intros args stdout seen [].
    + intros _ data Hret. congruence.
    + intros _ ed editor data Hed Hsplit Hnil Htty _.
      rewrite (edit_plan_intro _ _ _ _ _ _ ed editor filename None)
        in Hplan; done.
  - destruct (edit_plan_inv _ _ _ _ _ _ _ Hplan)
      as (ed & Hed & Hsplit & Hnil & Htarget & Hdata & _).
    cbn in Htarget, Hdata.
    injection Htarget as Htarget. injection Hdata as Hdata.
    rewrite <- Htarget, <- Hdata in Hrun.
    pose proof (prepared_files_untouched env filename use_tty (files st) Hne)
      as Hsame.
    pose proof (opens_on_tty env filename use_tty Hne) as Hopens.
    assert (Hprep : forall h data,
               ~ In (EvWrite h data)
                    (prepare_events env (Some filename) None use_tty
                                    filename)).
    { intros h data Hin. unfold prepare_events in Hin. simpl in Hin.
      destruct (tty_mode env use_tty); simpl in Hin;
        [destruct Hin as [|[]]; discriminate|destruct Hin]. }
    destruct (popen env _ _ _) as [e|fs' rc] eqn:Hpopen.
    + rewrite Hrun. cbn [trace value final files]. split_and!.
      * intros h data Hin. apply in_app_or in Hin as [Hin|[|[]]];
          [exact (Hprep _ _ Hin)|discriminate].
      * left. rewrite opens_on_app, Hopens. reflexivity.
      * intros args stdout seen Hin.
        apply in_app_or in Hin as [Hin|[|[]]]; [|discriminate].
        apply prepare_events_In in Hin
            as [(h & ? & _)|[(h & b & ?)|(h & ?)]]; discriminate.
      * intros _ data Hret. discriminate.
      * intros Hnoop. destruct (Hnoop (plan_args env p)
                                       (plan_stdout env use_tty)
                                       (prepared_files env (Some filename)
                                          None use_tty filename (files st)))
          as [rc Hexits].
        rewrite Hexits in Hpopen. discriminate.
    + rewrite Hrun. cbn [trace value final files]. split_and!.
      * intros h data Hin.
        apply in_app_or in Hin as [Hin|[|[|Hin]]]; try discriminate.
        -- exact (Hprep _ _ Hin).
        -- apply readback_events_In in Hin as [|[|]]; discriminate.
      * rewrite opens_on_app, Hopens. unfold readback_events, opens_on.
        destruct (fs' !! filename); simpl; [|left; reflexivity].
        rewrite String.eqb_refl. right. reflexivity.
      * intros args stdout seen Hin.
        apply in_app_or in Hin as [Hin|[Hin|[|Hin]]]; try discriminate.
        -- apply prepare_events_In in Hin
              as [(h & ? & _)|[(h & b & ?)|(h & ?)]]; discriminate.
        -- injection Hin as _ _ <-. exact Hsame.
        -- apply readback_events_In in Hin as [|[|]]; discriminate.
      * intros Hnoop data Hret.
        destruct (Hnoop (plan_args env p) (plan_stdout env use_tty)
                        (prepared_files env (Some filename) None use_tty
                                        filename (files st)))
          as [rc' Hexits].
        rewrite Hexits in Hpopen. injection Hpopen as <- <-.
        unfold readback_value in Hret.
        rewrite opens_on_app, Hopens. unfold readback_events, opens_on.
        destruct (prepared_files env (Some filename) None use_tty filename
                                 (files st) !! filename)
          as [back|] eqn:Hback; [|discriminate].
        injection Hret as ->. rewrite <- Hsame.
        split_and!; [reflexivity..|].
        simpl. rewrite String.eqb_refl. reflexivity.
      * intros Hnoop ed' editor data _ _ _ _ Hfile.
        destruct (Hnoop (plan_args env p) (plan_stdout env use_tty)
                        (prepared_files env (Some filename) None use_tty
                                        filename (files st)))
          as [rc' Hexits].
        rewrite Hexits in Hpopen. injection Hpopen as <- <-.
        unfold readback_value. rewrite Hsame, Hfile. reflexivity.
Qed.

Lemma edit_existing_file_witness :
  value (edit env_piped (Some "/tmp/test.txt") None None "" st_test)
  = Return (list_byte_of_string "test content").
Proof.
  apply (proj2 (proj2 (proj2 (proj2
           (edit_existing_file env_piped "/tmp/test.txt" None "" st_test
              (fun _ => ltac:(discriminate))))))
           (fun args stdout fs => ex_intro _ 0%Z eq_refl)
           "vim" ["vim"]).
  - reflexivity.
  - reflexivity.
  - discriminate.
  - reflexivity.
  - reflexivity.
Defined.

(** C10, as stated, fails: when the path is the terminal device and the
    standard output of the child is redirected to it, the target is
    opened twice, first for writing. *)
Lemma edit_terminal_as_target :
  tty_mode env_vim (Some true) = true /\
  get_tty_filename (sys_platform env_vim) = "/dev/tty" /\
  opens_on "/dev/tty"
           (trace (edit env_vim (Some "/dev/tty") None (Some true) ""
                        st_test))
  = [Handle "/dev/tty" WB; Handle "/dev/tty" RB] /\
  opens_on "/dev/tty"
           (trace (edit env_vim (Some "/dev/tty") None (Some true) ""
                        st_test))
  <> [Handle "/dev/tty" RB].
Proof. vm_compute. repeat split. discriminate. Qed.

(** ** More on the resolver *)

Lemma truthy_false v : truthy v = false -> unset_or_empty v.
Proof.
  destruct v as [s|]; [|left; reflexivity]. simpl.
  destruct (String.eqb_spec s ""); [subst; right; reflexivity|discriminate].
Qed.

Lemma truthy_true v : truthy v = true -> exists s, v = Some s /\ s <> "".
Proof.
  destruct v as [s|]; [|discriminate]. simpl.
  destruct (String.eqb_spec s ""); [discriminate|]. eauto.
Qed.

Lemma first_executable_found env eds path :
  first_executable env eds = Some path ->
  exists pre ed post,
    eds = pre ++ ed :: post /\
    (forall e, In e pre -> find_executable env e = None) /\
    find_executable env ed = Some path.
Proof.
  induction eds as [|ed eds IH]; simpl; [discriminate|].
  destruct (find_executable env ed) as [p|] eqn:Hed.
  - intros [= <-]. exists [], ed, eds. split_and!; [reflexivity| |exact Hed].
    intros e [].
  - intros Hrest. destruct (IH Hrest) as (pre & ed' & post & -> & Hpre & Hfound).
    exists (ed :: pre), ed', post. split_and!; [reflexivity| |exact Hfound].
    intros e [<-|He]; [exact Hed|exact (Hpre e He)].
Qed.

Lemma first_executable_missing env eds :
  first_executable env eds = None ->
  forall e, In e eds -> find_executable env e = None.
Proof.
  induction eds as [|ed eds IH]; simpl; [intros _ e []|].
  destruct (find_executable env ed) as [p|] eqn:Hed; [discriminate|].
  intros Hrest e [<-|He]; [exact Hed|exact (IH Hrest e He)].
Qed.

(** X1.  [get_editor] raises exactly when VISUAL and EDITOR are each unset
    or empty and the locator resolves none of the default editors, and
    what it raises then is [EditorError] with its fixed message; it
    raises nothing else. *)
Theorem get_editor_raises_iff (env : Env) (e : exn) :
  get_editor env = Raise e <->
  e = EditorError editor_not_found /\
  unset_or_empty (environ env !! "VISUAL") /\
  unset_or_empty (environ env !! "EDITOR") /\
  (forall ed, In ed get_default_editors -> find_executable env ed = None).
Proof.
  unfold get_editor, py_or. split.
  - destruct (truthy (environ env !! "VISUAL")) eqn:Hv.
    + rewrite Hv. destruct (truthy_true _ Hv) as (s & -> & _). discriminate.
    + destruct (truthy (environ env !! "EDITOR")) eqn:He.
      * destruct (truthy_true _ He) as (s & -> & _). discriminate.
      * destruct (first_executable env get_default_editors) as [p|] eqn:Hf;
          [discriminate|].
        intros [= <-]. split_and!; [reflexivity| | |].
        -- exact (truthy_false _ Hv).
        -- exact (truthy_false _ He).
        -- exact (first_executable_missing _ _ Hf).
  - intros (-> & Hv & He & Hnone).
    rewrite (truthy_unset_or_empty _ Hv), (truthy_unset_or_empty _ He).
    rewrite (first_executable_none _ _ Hnone). reflexivity.
Qed.

Lemma get_editor_raises_iff_witness :
  get_editor (posix_env {[ "VISUAL" := ""; "EDITOR" := "" ]} no_editor
                        true true (noop_editor 0))
  = Raise (EditorError editor_not_found).
Proof.
  apply (proj2 (get_editor_raises_iff _ _)). split_and!.
  - reflexivity.
  - right. reflexivity.
  - right. reflexivity.
  - intros ed _. reflexivity.
Defined.

(** X2.  What [get_editor] returns always comes from one of three places:
    it is the non-empty value of VISUAL; or VISUAL is unset or empty and
    it is the non-empty value of EDITOR; or both are unset or empty and
    it is what the locator gives for the first default editor that it
    resolves.  A value taken from the environment is never empty. *)
Theorem get_editor_sources (env : Env) (s : string) :
  get_editor env = Return s ->
  (environ env !! "VISUAL" = Some s /\ s <> "")
  \/ (unset_or_empty (environ env !! "VISUAL") /\
      environ env !! "EDITOR" = Some s /\ s <> "")
  \/ (unset_or_empty (environ env !! "VISUAL") /\
      unset_or_empty (environ env !! "EDITOR") /\
      exists pre ed post,
        get_default_editors = pre ++ ed :: post /\
        (forall e, In e pre -> find_executable env e = None) /\
        find_executable env ed = Some s).
Proof.
  unfold get_editor, py_or.
  destruct (truthy (environ env !! "VISUAL")) eqn:Hv.
  - rewrite Hv. destruct (truthy_true _ Hv) as (x & Hx & Hne).
    rewrite Hx. intros [= <-]. left. split; [reflexivity|exact Hne].
  - apply truthy_false in Hv.
    destruct (truthy (environ env !! "EDITOR")) eqn:He.
    + destruct (truthy_true _ He) as (y & Hy & Hne).
      rewrite Hy. intros [= <-]. right. left. split_and!; done.
    + apply truthy_false in He.
      destruct (first_executable env get_default_editors) as [p|] eqn:Hf;
        [|discriminate].
      intros [= <-]. right. right. split_and!; [done..|].
      exact (first_executable_found _ _ _ Hf).
Qed.

Lemma get_editor_sources_witness :
  (environ env_both !! "VISUAL" = Some "test-visual" /\ "test-visual" <> "")
  \/ (unset_or_empty (environ env_both !! "VISUAL") /\
      environ env_both !! "EDITOR" = Some "test-visual" /\
      "test-visual" <> "")
  \/ (unset_or_empty (environ env_both !! "VISUAL") /\
      unset_or_empty (environ env_both !! "EDITOR") /\
      exists pre ed post,
        get_default_editors = pre ++ ed :: post /\
        (forall e, In e pre -> find_executable env_both e = None) /\
        find_executable env_both ed = Some "test-visual").
Proof. apply (get_editor_sources env_both "test-visual"). reflexivity. Defined.

(** ** More on the argument policy *)

Lemma has_slash_neq editor name :
  has_slash editor = true -> has_slash name = false -> editor <> name.
Proof. intros He Hn ->. congruence. Qed.

(** X3.  [get_editor_args] knows base names only: a name with a slash in
    it, such as the full path of an editor, gets no flags. *)
Theorem get_editor_args_of_path (editor : string) :
  has_slash editor = true -> get_editor_args editor = [].
Proof.
  intros Hslash. unfold get_editor_args.
  rewrite !py_in_false.
  - assert (Hne : forall name, has_slash name = false ->
                               String.eqb editor name = false).
    { intros name Hn. apply String.eqb_neq, (has_slash_neq _ _ Hslash Hn). }
    rewrite !Hne by reflexivity. reflexivity.
  - intros y Hy. apply (has_slash_neq _ _ Hslash).
    simpl in Hy. destruct Hy as [<-|[<-|[]]]; reflexivity.
  - intros y Hy. apply (has_slash_neq _ _ Hslash).
    simpl in Hy. destruct Hy as [<-|[<-|[<-|[<-|[]]]]]; reflexivity.
Qed.

Lemma get_editor_args_of_path_witness :
  get_editor_args "/usr/bin/vim" = [].
Proof. apply get_editor_args_of_path. reflexivity. Defined.

(** X4.  Every flag that [get_editor_args] returns is an option: it
    starts with a dash, whatever the name asked for. *)
Theorem get_editor_args_are_options (editor flag : string) :
  In flag (get_editor_args editor) -> String.prefix "-" flag = true.
Proof.
  unfold get_editor_args.
  destruct (py_in editor ["vim"; "gvim"; "vim.basic"; "vim.tiny"]);
    [intros [<-|[<-|[]]]; reflexivity|].
  destruct (py_in editor ["emacs"; "emacsclient"]);
    [intros [<-|[]]; reflexivity|].
  destruct (String.eqb editor "gedit"); [intros [<-|[<-|[]]]; reflexivity|].
  destruct (String.eqb editor "nano"); [intros [<-|[]]; reflexivity|].
  destruct (String.eqb editor "code"); [intros [<-|[<-|[]]]; reflexivity|].
  intros [].
Qed.

Lemma get_editor_args_are_options_witness :
  String.prefix "-" "--new-window" = true.
Proof.
  apply (get_editor_args_are_options "gedit"). right. left. reflexivity.
Defined.

(** ** Failures before the editor runs *)

(** X5.  The editor command is worked out before anything else: when the
    resolver raises, when the resolved string cannot be tokenized, or when
    it has no token at all, [edit] raises that exception (an [IndexError]
    in the last case) having created no file, opened nothing and spawned
    nothing. *)
Theorem edit_fails_before_effects env filename contents use_tty suffix st e :
  get_editor env = Raise e
  \/ (exists ed, get_editor env = Return ed /\ shlex_split ed = Raise e)
  \/ (exists ed,
        get_editor env = Return ed /\ shlex_split ed = Return [] /\
        e = IndexError "list index out of range") ->
  edit env filename contents use_tty suffix st = Outcome st [] (Raise e).
Proof.
  unfold edit, bind, lift.
  intros [Hed|[(ed & Hed & Hsplit)|(ed & Hed & Hsplit & ->)]].
  - rewrite Hed. reflexivity.
  - rewrite Hed, Hsplit. reflexivity.
  - rewrite Hed, Hsplit. reflexivity.
Qed.

Lemma edit_fails_before_effects_witness :
  edit env_bare None (Some (PyStr (text_of_string "hello"))) None ".md"
       st_test
  = Outcome st_test [] (Raise (EditorError editor_not_found)).
Proof.
  apply edit_fails_before_effects. left. reflexivity.
Defined.

Lemma shlex_scan_blank acc s :
  blank s = true -> shlex_scan LexSpace "" acc s = Return (rev acc).
Proof.
  induction s as [|c s IH]; simpl; [reflexivity|].
  intros [Hc Hs]%andb_true_iff. rewrite Hc. exact (IH Hs).
Qed.

(** X6.  An editor string made of whitespace only, which the resolver
    accepts because it is not empty, has no token: [edit] raises
    [IndexError], not [EditorError], and does nothing else. *)
Theorem edit_blank_editor env filename contents use_tty suffix st ed :
  get_editor env = Return ed ->
  blank ed = true ->
  edit env filename contents use_tty suffix st
  = Outcome st [] (Raise (IndexError "list index out of range")).
Proof.
  intros Hed Hblank. unfold edit, bind, lift.
  rewrite Hed. unfold shlex_split. rewrite (shlex_scan_blank [] ed Hblank).
  reflexivity.
Qed.

Lemma edit_blank_editor_witness :
  edit env_blank_VISUAL (Some "/tmp/test.txt") None None "" st_test
  = Outcome st_test [] (Raise (IndexError "list index out of range")).
Proof.
  apply (edit_blank_editor env_blank_VISUAL _ _ _ _ _ "  "); reflexivity.
Defined.

(** ** The temporary file *)

Lemma append_assoc (a b c : string) : (a +:+ b) +:+ c = a +:+ b +:+ c.
Proof.
  induction a as [|x a IH]; [reflexivity|].
  change (String x ((a +:+ b) +:+ c) = String x (a +:+ b +:+ c)).
  f_equal. exact IH.
Qed.

(** The name that [fresh_name] returns is made from one of the
    candidates. *)
Lemma fresh_name_shape dir ok suffix fs names file :
  fresh_name dir ok suffix fs names = Return file ->
  exists name,
    In name names /\ file = dir +:+ "tmp" +:+ name +:+ suffix.
Proof.
  induction names as [|name names IH]; simpl; [discriminate|].
  destruct (fs !! (dir +:+ _)) eqn:Hfree.
  - intros H. destruct (IH H) as (n & Hn & ->). exists n. tauto.
  - destruct (ok (dir +:+ _)); [|discriminate].
    intros [= <-]. exists name. tauto.
Qed.

(** X7.  Without a path, the file that the editor is given is a new
    temporary file: its name is made of the temporary directory as the
    platform joins it to a name, the prefix tmp, one of the candidate
    names and the suffix of the call, so that it ends with the suffix; no
    file of that name existed before the call; and it is the last
    argument of the editor. *)
Theorem edit_temporary_target env contents use_tty suffix st
    args stdout seen :
  In (EvSpawn args stdout seen)
     (trace (edit env None contents use_tty suffix st)) ->
  exists target name,
    In name (candidate_names env) /\
    target = tempdir_prefix env +:+ "tmp" +:+ name +:+ suffix /\
    (exists stem, target = stem +:+ suffix) /\
    files st !! target = None /\
    last args = Some target /\
    In (EvOpen (Handle target WplusB))
       (trace (edit env None contents use_tty suffix st)).
Proof.
  intros Hin.
  destruct (edit_spawned _ _ _ _ _ _ _ _ _ Hin)
    as (p & fs' & rc & Hplan & -> & _ & _ & _ & Hrun).
  destruct (edit_plan_inv _ _ _ _ _ _ _ Hplan)
    as (ed & _ & _ & _ & Htarget & _).
  cbn [target_path] in Htarget.
  destruct (fresh_name_shape _ _ _ _ _ _ Htarget) as (name & Hname & Hfile).
  destruct (fresh_name_inv _ _ _ _ _ _ Htarget) as (Hnew & _ & _).
  exists (plan_target p), name. split_and!; try done.
  - exists (tempdir_prefix env +:+ "tmp" +:+ name).
    rewrite Hfile, !append_assoc. reflexivity.
  - unfold plan_args. rewrite !app_assoc. apply last_snoc.
  - rewrite Hrun. cbn [trace prepare_events app]. left. reflexivity.
Qed.

Lemma edit_temporary_target_witness :
  exists target name,
    In name (candidate_names env_vim) /\
    target = tempdir_prefix env_vim +:+ "tmp" +:+ name +:+ ".md" /\
    (exists stem, target = stem +:+ ".md") /\
    files st_test !! target = None /\
    last ["vim"; "-f"; "-o"; "/tmp/tmpk3x9_q0a.md"] = Some target /\
    In (EvOpen (Handle target WplusB))
       (trace (edit env_vim None None None ".md" st_test)).
Proof.
  apply (edit_temporary_target env_vim None None ".md" st_test
           ["vim"; "-f"; "-o"; "/tmp/tmpk3x9_q0a.md"] None
           (<["/tmp/tmpk3x9_q0a.md" := []]> (files st_test))).
  vm_compute. right. left. reflexivity.
Defined.

(** ** When the caller chooses [use_tty] *)

(** X8.  A [use_tty] given by the caller decides alone, whatever the
    standard streams are attached to: with [True] the editor gets the
    file object opened on the terminal device as its standard output,
    and with [False] it inherits the standard output and the terminal
    device is not opened. *)
Theorem edit_use_tty_explicit env filename contents (b : bool) suffix st
    args stdout seen :
  In (EvSpawn args stdout seen)
     (trace (edit env filename contents (Some b) suffix st)) ->
  stdout = (if b
            then Some (Handle (get_tty_filename (sys_platform env)) WB)
            else None) /\
  (b = true ->
   In (EvOpen (Handle (get_tty_filename (sys_platform env)) WB))
      (trace (edit env filename contents (Some b) suffix st))) /\
  (b = false ->
   forall target,
     target_path env filename suffix st = Return target ->
     forall h,
       In h (opens_of (trace (edit env filename contents (Some b) suffix
                                   st))) ->
       h_path h = target).
Proof.
  intros Hin.
  destruct (edit_spawned _ _ _ _ _ _ _ _ _ Hin)
    as (p & fs' & rc & Hplan & _ & -> & _ & _ & Hrun).
  destruct (edit_plan_inv _ _ _ _ _ _ _ Hplan)
    as (ed & _ & _ & _ & Htarget & _).
  split_and!.
  - unfold plan_stdout, tty_mode, tty_handle. destruct b; reflexivity.
  - intros ->. rewrite Hrun. cbn [trace]. apply in_or_app. left.
    unfold prepare_events, tty_mode, tty_handle.
    apply in_or_app. right. apply in_or_app. right. left. reflexivity.
  - intros -> target Htarget' h Hh.
    rewrite Htarget in Htarget'. injection Htarget' as <-.
    rewrite Hrun in Hh. cbn [trace] in Hh.
    rewrite opens_of_app in Hh. apply in_app_or in Hh as [Hh|Hh].
    + unfold prepare_events, tty_mode in Hh.
      destruct filename, (plan_data p); simpl in Hh;
        intuition (subst; reflexivity).
    + simpl in Hh. unfold readback_events in Hh.
      destruct (fs' !! plan_target p); simpl in Hh;
        intuition (subst; reflexivity).
Qed.

Lemma edit_use_tty_explicit_witness :
  (@None handle = None) /\
  (false = true ->
   In (EvOpen (Handle (get_tty_filename (sys_platform env_piped)) WB))
      (trace (edit env_piped (Some "/tmp/test.txt") None (Some false) ""
                   st_test))) /\
  (false = false ->
   forall target,
     target_path env_piped (Some "/tmp/test.txt") "" st_test
     = Return target ->
     forall h,
       In h (opens_of (trace (edit env_piped (Some "/tmp/test.txt") None
                                   (Some false) "" st_test))) ->
       h_path h = target).
Proof.
  apply (edit_use_tty_explicit env_piped (Some "/tmp/test.txt") None false
           "" st_test ["vim"; "-f"; "-o"; "/tmp/test.txt"] None
           (files st_test)).
  vm_compute. left. reflexivity.
Defined.

(** ** Contents for a file that exists *)

(** X9.  With a path and contents, the file is overwritten: whatever it
    held before, what the editor finds in it is the contents as bytes and
    nothing more, and with a spawner that changes no file [edit] returns
    these bytes and the file still holds them.  The path is not the
    terminal device that the call opens. *)
Theorem edit_overwrites env filename contents use_tty suffix st data :
  contents_bytes contents = Return data ->
  (tty_mode env use_tty = true ->
   filename <> get_tty_filename (sys_platform env)) ->
  (forall args stdout seen,
      In (EvSpawn args stdout seen)
         (trace (edit env (Some filename) (Some contents) use_tty suffix
                      st)) ->
      seen !! filename = Some data) /\
  (no_mutation env ->
   forall out,
     value (edit env (Some filename) (Some contents) use_tty suffix st)
     = Return out ->
     out = data /\
     files (final (edit env (Some filename) (Some contents) use_tty suffix
                        st)) !! filename
     = Some data).
Proof.
  intros Hbytes Hne.
  assert (Hspawn : forall args stdout seen,
             In (EvSpawn args stdout seen)
                (trace (edit env (Some filename) (Some contents) use_tty
                             suffix st)) ->
             seen !! filename = Some data /\
             forall fs' rc,
               popen env args stdout seen = Exits fs' rc ->
               edit env (Some filename) (Some contents) use_tty suffix st
               = Outcome {| files := fs';
                            opened := kept_open env (Some filename) use_tty
                                                filename ++ opened st |}
                         (prepare_events env (Some filename) (Some data)
                                         use_tty filename
                            ++ EvSpawn args stdout seen :: EvWait rc
                            :: readback_events filename fs')
                         (readback_value filename fs')).
  { intros args stdout seen Hin.
    destruct (edit_spawned _ _ _ _ _ _ _ _ _ Hin)
      as (p & fs' & rc & Hplan & _ & _ & Hseen & Hpopen & Hrun).
    destruct (edit_plan_inv _ _ _ _ _ _ _ Hplan)
      as (ed & _ & _ & _ & Htarget & Hdata & _).
    cbn [target_path] in Htarget. injection Htarget as Htarget.
    unfold initial_data in Hdata. rewrite Hbytes in Hdata.
    injection Hdata as Hdata.
    rewrite <- Htarget, <- Hdata in Hseen, Hrun. split.
    - rewrite Hseen. apply prepared_files_target. exact Hne.
    - intros fs'' rc' Hpopen'. rewrite Hpopen in Hpopen'.
      injection Hpopen' as <- <-. exact Hrun. }
  split.
  - intros args stdout seen Hin. exact (proj1 (Hspawn _ _ _ Hin)).
  - intros Hnoop out Hret.
    destruct (edit_returned _ _ _ _ _ _ _ Hret)
      as (args & stdout & seen & Hin).
    destruct (Hspawn _ _ _ Hin) as [Hseen Hrun].
    destruct (Hnoop args stdout seen) as [rc Hexits].
    rewrite (Hrun _ _ Hexits) in Hret |- *.
    cbn [value final files] in Hret |- *.
    unfold readback_value in Hret. rewrite Hseen in Hret.
    injection Hret as <-. split; [reflexivity|exact Hseen].
Qed.

Lemma edit_overwrites_witness :
  files st_test !! "/tmp/test.txt"
  = Some (list_byte_of_string "test content") /\
  value (edit env_piped (Some "/tmp/test.txt")
              (Some (PyStr (text_of_string "x"))) None "" st_test)
  = Return (list_byte_of_string "x").
Proof.
  split; [reflexivity|].
  assert (Hret : value (edit env_piped (Some "/tmp/test.txt")
                             (Some (PyStr (text_of_string "x"))) None ""
                             st_test)
                 = Return (list_byte_of_string "x")).
  { vm_compute. reflexivity. }
  destruct (proj2 (edit_overwrites env_piped "/tmp/test.txt"
                     (PyStr (text_of_string "x")) None "" st_test
                     (list_byte_of_string "x") eq_refl
                     (fun _ => ltac:(discriminate)))
                  (fun args stdout fs => ex_intro _ 0%Z eq_refl)
                  _ Hret) as [_ Hfile].
  exact Hret.
Defined.

(** ** The other files *)

(** X10.  Before the editor runs, [edit] changes no file but the target
    and, when it opens it, the terminal device: every other path holds
    for the editor what it held before the call. *)
Theorem edit_frame env filename contents use_tty suffix st
    args stdout seen :
  In (EvSpawn args stdout seen)
     (trace (edit env filename contents use_tty suffix st)) ->
  exists target,
    target_path env filename suffix st = Return target /\
    forall p,
      p <> target ->
      p <> get_tty_filename (sys_platform env) ->
      seen !! p = files st !! p.
Proof.
  intros Hin.
  destruct (edit_spawned _ _ _ _ _ _ _ _ _ Hin)
    as (p & fs' & rc & Hplan & _ & _ & -> & _).
  destruct (edit_plan_inv _ _ _ _ _ _ _ Hplan)
    as (ed & _ & _ & _ & Htarget & _).
  exists (plan_target p). split; [exact Htarget|].
  intros q Hq Htty. unfold prepared_files.
  destruct (tty_mode env use_tty), (plan_data p), filename;
    rewrite ?lookup_insert_ne by (apply not_eq_sym; assumption);
    reflexivity.
Qed.

Lemma edit_frame_witness :
  exists target,
    target_path env_piped None ".md" st_test = Return target /\
    forall p,
      p <> target ->
      p <> get_tty_filename (sys_platform env_piped) ->
      (<["/dev/tty" := []]>
         (<["/tmp/tmpk3x9_q0a.md" := list_byte_of_string "x"]>
            (files st_test))) !! p
      = files st_test !! p.
Proof.
  apply (edit_frame env_piped None
           (Some (PyBytes (list_byte_of_string "x"))) None ".md" st_test
           ["vim"; "-f"; "-o"; "/tmp/tmpk3x9_q0a.md"]
           (Some (Handle "/dev/tty" WB))).
  vm_compute. do 5 right. left. reflexivity.
Defined.

(** ** A target that is gone *)

(** X11.  When the file is not there once the editor has exited (the
    editor removed it, or never created a file that did not exist),
    [edit] has nothing to return: it raises the error of the [open] for
    reading, whatever the return code of the editor, and no file has been
    opened for reading. *)
Theorem edit_target_missing env filename contents use_tty suffix st
    args stdout seen fs' rc target :
  In (EvSpawn args stdout seen)
     (trace (edit env filename contents use_tty suffix st)) ->
  popen env args stdout seen = Exits fs' rc ->
  target_path env filename suffix st = Return target ->
  fs' !! target = None ->
  value (edit env filename contents use_tty suffix st)
  = Raise (OSError "No such file or directory") /\
  (forall h,
      In (EvOpen h) (trace (edit env filename contents use_tty suffix st)) ->
      h_mode h <> RB) /\
  (forall h,
      ~ In (EvRead h) (trace (edit env filename contents use_tty suffix st))).
Proof.
  intros Hin Hpopen Htarget Hgone.
  destruct (edit_spawned _ _ _ _ _ _ _ _ _ Hin)
    as (p & fs'' & rc' & Hplan & _ & _ & _ & Hpopen' & Hrun).
  rewrite Hpopen in Hpopen'. injection Hpopen' as <- <-.
  destruct (edit_plan_inv _ _ _ _ _ _ _ Hplan)
    as (ed & _ & _ & _ & Htarget' & _).
  rewrite Htarget in Htarget'. injection Htarget' as Htarget'.
  rewrite <- Htarget' in Hrun. rewrite Hrun. cbn [value trace].
  unfold readback_value, readback_events. rewrite Hgone.
  assert (Hev : forall ev,
             In ev (prepare_events env filename (plan_data p) use_tty target
                      ++ [EvSpawn args stdout seen; EvWait rc]) ->
             (exists h, ev = EvOpen h /\ h_mode h <> RB)
             \/ (exists h b, ev = EvWrite h b) \/ (exists h, ev = EvClose h)
             \/ ev = EvSpawn args stdout seen \/ ev = EvWait rc).
  { intros ev Hev. apply in_app_or in Hev as [Hev|[<-|[<-|[]]]];
      [|tauto..].
    apply prepare_events_In in Hev. tauto. }
  split_and!.
  - reflexivity.
  - intros h Ho.
    destruct (Hev _ Ho)
      as [(h' & Heq & Hm)|[(h' & b & ?)|[(h' & ?)|[?|?]]]];
      try discriminate.
    injection Heq as <-. exact Hm.
  - intros h Hr.
    destruct (Hev _ Hr)
      as [(h' & ? & _)|[(h' & b & ?)|[(h' & ?)|[?|?]]]];
      discriminate.
Qed.

Lemma edit_target_missing_witness :
  value (edit env_removing (Some "/tmp/test.txt") None None "" st_test)
  = Raise (OSError "No such file or directory").
Proof.
  apply (edit_target_missing env_removing (Some "/tmp/test.txt") None None ""
           st_test ["vim"; "-f"; "-o"; "/tmp/test.txt"] None (files st_test)
           ∅ 0%Z "/tmp/test.txt").
  - vm_compute. left. reflexivity.
  - reflexivity.
  - reflexivity.
  - reflexivity.
Defined.

(** ** The files that [edit] closes *)

(** X12.  A call that returns has closed the file it wrote the contents
    through and the file it read the result from: of the file objects
    opened by the call, none is left open other than the one on the
    temporary file (when no path is given) and the one on the terminal
    device (when the standard output of the child is redirected to it);
    and each time the call opened a file for reading, or the target for
    writing, it closed it afterwards. *)
Theorem edit_closes_its_files env filename contents use_tty suffix st data :
  value (edit env filename contents use_tty suffix st) = Return data ->
  (exists leaked,
      opened (final (edit env filename contents use_tty suffix st))
      = leaked ++ opened st /\
      (forall h,
          In h leaked ->
          (h = tty_handle env /\ tty_mode env use_tty = true)
          \/ (h_mode h = WplusB /\ filename = None)) /\
      (filename <> None -> tty_mode env use_tty = false -> leaked = [])) /\
  (forall h,
      In (EvOpen h) (trace (edit env filename contents use_tty suffix st)) ->
      h_mode h = RB \/ (h_mode h = WB /\ h <> tty_handle env) ->
      In (EvClose h) (trace (edit env filename contents use_tty suffix st))).
Proof.
  intros Hval.
  destruct (edit_returned _ _ _ _ _ _ _ Hval) as (args & stdout & seen & Hin).
  destruct (edit_spawned _ _ _ _ _ _ _ _ _ Hin)
    as (p & fs' & rc & _ & _ & _ & _ & _ & Hrun).
  rewrite Hrun. cbn [final opened trace]. split.
  - exists (kept_open env filename use_tty (plan_target p)).
    unfold kept_open. split_and!.
    + reflexivity.
    + intros h Hh. apply in_app_or in Hh as [Hh|Hh].
      * destruct (tty_mode env use_tty); [|destruct Hh].
        destruct Hh as [<-|[]]. left. split; reflexivity.
      * destruct filename; [destruct Hh|].
        destruct Hh as [<-|[]]. right. split; reflexivity.
    + intros Hname ->. destruct filename; [reflexivity|contradiction].
  - intros h Ho Hmode.
    apply in_app_or in Ho as [Ho|[|[|Ho]]]; try discriminate.
    + apply in_or_app. left. unfold prepare_events in Ho |- *.
      apply in_app_or in Ho as [Ho|Ho];
        [|apply in_app_or in Ho as [Ho|Ho]].
      * destruct filename; simpl in Ho; [tauto|].
        destruct Ho as [[= <-]|[]]. simpl in Hmode.
        destruct Hmode as [|[]]; discriminate.
      * destruct (plan_data p); simpl in Ho; [|tauto].
        destruct Ho as [[= <-]|[|[|[]]]]; try discriminate.
        apply in_or_app. right. apply in_or_app. left.
        simpl. tauto.
      * destruct (tty_mode env use_tty); simpl in Ho; [|tauto].
        destruct Ho as [[= <-]|[]].
        destruct Hmode as [|[_ Hdiff]]; [discriminate|].
        contradiction Hdiff. reflexivity.
    + apply in_or_app. right. right. right.
      unfold readback_events in Ho |- *.
      destruct (fs' !! plan_target p); simpl in Ho; [|tauto].
      destruct Ho as [[= <-]|[|[|[]]]]; try discriminate.
      simpl. tauto.
Qed.

Lemma edit_closes_its_files_witness :
  opened (final (edit env_vim (Some "/tmp/test.txt")
                      (Some (PyBytes (list_byte_of_string "x"))) None ""
                      st_test))
  = [].
Proof.
  destruct (proj1 (edit_closes_its_files env_vim (Some "/tmp/test.txt")
                     (Some (PyBytes (list_byte_of_string "x"))) None ""
                     st_test (list_byte_of_string "x") eq_refl))
    as (leaked & Hopened & _ & Hnone).
  rewrite Hopened, Hnone; [reflexivity|discriminate|reflexivity].
Defined.

(** ** Text that cannot be encoded *)

Lemma str_encode_fails s :
  encodable s = false -> str_encode s = Raise UnicodeEncodeError.
Proof.
  induction s as [|cp s IH]; simpl; [discriminate|].
  destruct (utf8_char cp) as [b|]; [|reflexivity]. simpl.
  intros Hs. rewrite (IH Hs). reflexivity.
Qed.

(** X13.  When the contents are a [str] that UTF-8 cannot encode (it has
    a lone surrogate in it), [edit] raises before it opens the target for
    writing: nothing is written, [Popen] is not called, and the only file
    the call may have opened is the temporary file.  What it raises is
    the encoding error as soon as the editor command and the target are
    settled. *)
Theorem edit_unencodable env filename s use_tty suffix st :
  encodable s = false ->
  (exists e,
      value (edit env filename (Some (PyStr s)) use_tty suffix st) = Raise e)
  /\
  (forall ev,
      In ev (trace (edit env filename (Some (PyStr s)) use_tty suffix st)) ->
      exists target, ev = EvOpen (Handle target WplusB) /\ filename = None)
  /\
  (forall ed editor target,
      get_editor env = Return ed ->
      shlex_split ed = Return editor ->
      editor <> [] ->
      target_path env filename suffix st = Return target ->
      value (edit env filename (Some (PyStr s)) use_tty suffix st)
      = Raise UnicodeEncodeError).
Proof.
  intros Hs. apply str_encode_fails in Hs.
  unfold edit, target_path, bind, lift, ret, NamedTemporaryFile.
  destruct (get_editor env) as [e|ed] eqn:Hed;
    [split_and!; [eauto|intros ev []|intros; congruence]|].
  destruct (shlex_split ed) as [e|editor] eqn:Hsplit;
    [split_and!; [eauto|intros ev []|intros; simplify_eq; congruence]|].
  destruct editor as [|editor0 editor];
    [split_and!; [eauto|intros ev []|intros; simplify_eq; congruence]|].
  cbn [index0].
  destruct filename as [target|].
  - rewrite Hs. cbn [value trace app]. split_and!.
    + eauto.
    + intros ev [].
    + reflexivity.
  - destruct (fresh_name (tempdir_prefix env) (writable env) suffix (files st)
                         (candidate_names env)) as [e|target] eqn:Hfresh.
    + split_and!; [eauto|intros ev []|intros; congruence].
    + rewrite Hs. cbn [value trace app h_path]. split_and!.
      * eauto.
      * intros ev [<-|[]]. eauto.
      * reflexivity.
Qed.

Lemma edit_unencodable_witness :
  value (edit env_vim None (Some (PyStr [104%N; 0xD800%N])) None "" st_test)
  = Raise UnicodeEncodeError.
Proof.
  apply (proj2 (proj2 (edit_unencodable env_vim None [104%N; 0xD800%N] None
                         "" st_test eq_refl))
           "vim" ["vim"] "/tmp/tmpk3x9_q0a").
  - reflexivity.
  - reflexivity.
  - discriminate.
  - vm_compute. reflexivity.
Defined.

(** ** Editors reached through a link *)

Lemma append_cons c s t : String c s +:+ t = String c (s +:+ t).
Proof. reflexivity. Qed.

Lemma basename_from_no_slash cur name :
  has_slash name = false -> basename_from cur name = cur +:+ name.
Proof.
  revert cur. induction name as [|c name IH]; intros cur; simpl.
  - intros _. induction cur as [|x cur IHc]; [reflexivity|].
    rewrite append_cons, <- IHc. reflexivity.
  - intros [Hc Hname]%orb_false_iff. rewrite Hc, (IH _ Hname).
    apply append_assoc.
Qed.

Lemma basename_from_dir cur dir name :
  basename_from cur (dir +:+ "/" +:+ name) = basename_from "" name.
Proof.
  revert cur. induction dir as [|c dir IH]; intros cur.
  - reflexivity.
  - rewrite append_cons. simpl. destruct (Ascii.eqb c "/"); apply IH.
Qed.

Lemma basename_of_path dir name :
  has_slash name = false -> posix_basename (dir +:+ "/" +:+ name) = name.
Proof.
  intros Hname. unfold posix_basename.
  rewrite basename_from_dir, (basename_from_no_slash _ _ Hname).
  reflexivity.
Qed.

(** X14.  On a POSIX system, where [os.path.basename] is posixpath's, the
    flags go by the name of the file that the first token leads to, not
    by the name that was written: when the real path of the first token
    is a file called [name] in some directory, the argument vector is the
    tokens, the flags of [name] and the target. *)
Theorem edit_flags_follow_realpath env filename contents use_tty suffix st
    args stdout seen ed tok rest dir name :
  (forall p, os_path_basename env p = posix_basename p) ->
  In (EvSpawn args stdout seen)
     (trace (edit env filename contents use_tty suffix st)) ->
  get_editor env = Return ed ->
  shlex_split ed = Return (tok :: rest) ->
  realpath env tok = dir +:+ "/" +:+ name ->
  has_slash name = false ->
  exists target,
    target_path env filename suffix st = Return target /\
    args = (tok :: rest) ++ get_editor_args name ++ [target].
Proof.
  intros Hposix Hin Hed Hsplit Hreal Hname.
  destruct (edit_spawn_args _ _ _ _ _ _ _ _ _ Hin)
    as (ed' & editor & target & Hed' & Hsplit' & _ & Htarget & ->).
  rewrite Hed in Hed'. injection Hed' as <-.
  rewrite Hsplit in Hsplit'. injection Hsplit' as <-.
  exists target. split; [exact Htarget|].
  cbn [hd]. rewrite Hposix, Hreal, (basename_of_path _ _ Hname).
  reflexivity.
Qed.

Lemma edit_flags_follow_realpath_witness :
  exists target,
    target_path env_linked (Some "/tmp/test.txt") "" st_test = Return target
    /\ ["editor"; "-f"; "-o"; "/tmp/test.txt"]
       = ["editor"] ++ get_editor_args "vim.tiny" ++ [target].
Proof.
  apply (edit_flags_follow_realpath env_linked (Some "/tmp/test.txt") None
           None "" st_test _ None (files st_test) "editor" "editor" []
           "/usr/bin" "vim.tiny").
  - intros p. reflexivity.
  - vm_compute. left. reflexivity.
  - reflexivity.
  - reflexivity.
  - reflexivity.
  - reflexivity.
Defined.

(** ** The [edit] subcommand *)

(** What the child finds in the target, for a call with contents. *)
Lemma edit_data_at_spawn env filename contents use_tty suffix st
    args stdout seen target data :
  In (EvSpawn args stdout seen)
     (trace (edit env filename (Some contents) use_tty suffix st)) ->
  contents_bytes contents = Return data ->
  target_path env filename suffix st = Return target ->
  (tty_mode env use_tty = true ->
   target <> get_tty_filename (sys_platform env)) ->
  seen !! target = Some data.
Proof.
  intros Hin Hbytes Htarget Hne.
  destruct (edit_spawned _ _ _ _ _ _ _ _ _ Hin)
    as (p & fs' & rc & Hplan & _ & _ & -> & _).
  destruct (edit_plan_inv _ _ _ _ _ _ _ Hplan)
    as (ed & _ & _ & _ & Htarget' & Hdata & _).
  rewrite Htarget in Htarget'. injection Htarget' as <-.
  unfold initial_data in Hdata. rewrite Hbytes in Hdata.
  injection Hdata as <-. apply prepared_files_target. exact Hne.
Qed.

(** X15.  The [edit] subcommand encodes the contents with the encoding of
    the locale before it calls [edit], which therefore writes these
    bytes as they are; when the locale cannot encode them nothing is
    done at all.  It prints once, and only when [edit] returns: what it
    prints is the bytes that the target holds when the editor has
    exited; when [edit] raises, it raises the same and prints nothing. *)
Theorem cli_edit env preferred ns st :
  (forall s e,
      ns_contents ns = Some s -> preferred s = Raise e ->
      _edit env preferred ns st = CliOutcome st [] [] (Raise e)) /\
  (forall s args stdout seen target,
      ns_contents ns = Some s ->
      In (EvSpawn args stdout seen) (cli_trace (_edit env preferred ns st)) ->
      target_path env (ns_path ns) "" st = Return target ->
      (tty_mode env None = true ->
       target <> get_tty_filename (sys_platform env)) ->
      exists b, preferred s = Return b /\ seen !! target = Some b) /\
  (cli_value (_edit env preferred ns st) = Return tt ->
   exists target b,
     target_path env (ns_path ns) "" st = Return target /\
     files (cli_final (_edit env preferred ns st)) !! target = Some b /\
     cli_printed (_edit env preferred ns st) = [PrintBytes b]) /\
  (forall e,
      cli_value (_edit env preferred ns st) = Raise e ->
      cli_printed (_edit env preferred ns st) = []).
Proof.
  unfold _edit. split_and!.
  - intros s e -> ->. reflexivity.
  - intros s args stdout seen target -> Hin Htarget Hne.
    destruct (preferred s) as [e|b]; [destruct Hin|].
    assert (Hin' : In (EvSpawn args stdout seen)
                      (trace (edit env (ns_path ns) (Some (PyBytes b)) None
                                   "" st))).
    { destruct (edit env (ns_path ns) (Some (PyBytes b)) None "" st)
        as [st1 t1 [e|out]]; exact Hin. }
    exists b. split; [reflexivity|].
    exact (edit_data_at_spawn _ _ _ _ _ _ _ _ _ _ b Hin' eq_refl Htarget
             Hne).
  - destruct (match ns_contents ns with
              | Some contents =>
                  match preferred contents with
                  | inl e => Raise e
                  | inr b => Return (Some (PyBytes b))
                  end
              | None => Return None
              end) as [e|contents]; [discriminate|].
    destruct (edit env (ns_path ns) contents None "" st)
      as [st1 t1 [e|out]] eqn:Hedit; [discriminate|].
    intros _. cbn [cli_final cli_printed].
    assert (Hval : value (edit env (ns_path ns) contents None "" st)
                   = Return out) by (rewrite Hedit; reflexivity).
    destruct (edit_returned _ _ _ _ _ _ _ Hval)
      as (args & stdout & seen & Hin).
    destruct (edit_spawned _ _ _ _ _ _ _ _ _ Hin)
      as (p & fs' & rc & Hplan & _ & _ & _ & _ & Hrun).
    destruct (edit_plan_inv _ _ _ _ _ _ _ Hplan)
      as (ed & _ & _ & _ & Htarget & _).
    rewrite Hrun in Hedit. injection Hedit as <- _ Hout.
    unfold readback_value in Hout.
    destruct (fs' !! plan_target p) as [back|] eqn:Hback; [|discriminate].
    injection Hout as <-.
    exists (plan_target p), back. split_and!; done.
  - intros e.
    destruct (match ns_contents ns with
              | Some contents =>
                  match preferred contents with
                  | inl e => Raise e
                  | inr b => Return (Some (PyBytes b))
                  end
              | None => Return None
              end) as [e'|contents]; [reflexivity|].
    destruct (edit env (ns_path ns) contents None "" st)
      as [st1 t1 [e'|out]]; [reflexivity|discriminate].
Qed.

Lemma cli_edit_witness :
  cli_printed (_edit env_vim latin1
                     (Namespace None (Some [104%N; 233%N])) st_test)
  = [PrintBytes [byte_of_N 104; byte_of_N 233]].
Proof.
  destruct (proj1 (proj2 (proj2
              (cli_edit env_vim latin1
                        (Namespace None (Some [104%N; 233%N])) st_test)))
              eq_refl)
    as (target & b & Htarget & Hfile & Hprinted).
  rewrite Hprinted. vm_compute in Htarget. injection Htarget as <-.
  vm_compute in Hfile. injection Hfile as <-. reflexivity.
Defined.

(** ** The [get-editor] subcommand *)

(** X16.  The [get-editor] subcommand touches nothing and prints at most
    one line, and what it prints is what [edit] runs: in the same world,
    every editor process that [edit] creates has an argument vector that
    starts with the tokens of the printed string. *)
Theorem cli_get_editor_agrees env st :
  cli_final (_get_editor env st) = st /\
  cli_trace (_get_editor env st) = [] /\
  (forall e,
      cli_value (_get_editor env st) = Raise e ->
      cli_printed (_get_editor env st) = []) /\
  (forall s filename contents use_tty suffix st' args stdout seen,
      In (PrintStr s) (cli_printed (_get_editor env st)) ->
      In (EvSpawn args stdout seen)
         (trace (edit env filename contents use_tty suffix st')) ->
      cli_printed (_get_editor env st) = [PrintStr s] /\
      exists editor rest,
        shlex_split s = Return editor /\ args = editor ++ rest).
Proof.
  unfold _get_editor.
  destruct (get_editor env) as [e|ed] eqn:Hed; cbn; split_and!; try done.
  intros s filename contents use_tty suffix st' args stdout seen
    [[= <-]|[]] Hin.
  split; [reflexivity|].
  destruct (edit_spawn_args _ _ _ _ _ _ _ _ _ Hin)
    as (ed' & editor & target & Hed' & Hsplit & _ & _ & ->).
  rewrite Hed in Hed'. injection Hed' as <-.
  exists editor,
    (get_editor_args (os_path_basename env (realpath env (hd "" editor)))
       ++ [target]).
  split; [exact Hsplit|reflexivity].
Qed.

Lemma cli_get_editor_agrees_witness :
  cli_printed (_get_editor env_emacsclient st_test)
  = [PrintStr "emacsclient -c"] /\
  exists editor rest,
    shlex_split "emacsclient -c" = Return editor /\
    ["emacsclient"; "-c"; "-nw"; "/tmp/test.txt"] = editor ++ rest.
Proof.
  apply (proj2 (proj2 (proj2 (cli_get_editor_agrees env_emacsclient st_test)))
           "emacsclient -c" (Some "/tmp/test.txt") None None "" st_test
           ["emacsclient"; "-c"; "-nw"; "/tmp/test.txt"] None
           (files st_test)).
  - left. reflexivity.
  - vm_compute. left. reflexivity.
Defined.
